(** * nelko-p21: label rasterizer, command framer and serial transport

    A shallow embedding of [p21.py] and of the older [simple_print.py],
    with the properties of their rasterizer, framer and transport.

    Python [bytes] are lists of 8-bit characters, [str] is [string], [int]
    is [Z].  Rasters are a size together with a pixel plane.  File system,
    fonts, the serial device, the image viewer and standard output live in
    an explicit [world]; Python exceptions are a second kind of outcome. *)

From Stdlib Require Import ZArith List String Ascii Bool Lia.
From Stdlib Require Import DecimalString DecimalPos DecimalZ.
Import ListNotations.

Local Open Scope Z_scope.

(** ** Python [bytes], [str] and [int] formatting *)

Definition bytes := list ascii.

Definition xFF : ascii := Ascii true true true true true true true true.

Definition CR : ascii := "013"%char.
Definition LF : ascii := "010"%char.
Definition CRLF : string := String CR (String LF EmptyString).

(** [len(b)] *)
Definition len (b : bytes) : Z := Z.of_nat (List.length b).

(** [b.ljust(width, fill)]: [b] itself when [width <= len(b)]. *)
Definition ljust (b : bytes) (width : Z) (fill : ascii) : bytes :=
  b ++ repeat fill (Z.to_nat (width - len b)).

(** [b[:stop]] for a non-negative [stop]. *)
Definition slice_to (b : bytes) (stop : Z) : bytes := firstn (Z.to_nat stop) b.

(** [str(n)] / [f"{n}"] for an [int]: decimal digits, [-] for negatives. *)
Definition str (n : Z) : string := NilZero.string_of_int (Z.to_int n).

(** [s.encode()] on text made of ASCII characters only: one byte each. *)
Definition encode (s : string) : bytes := list_ascii_of_string s.

(** ** Pillow rasters *)

Inductive image_mode := L | Bilevel.

Record image := Image {
  mode : image_mode;
  width : nat;
  height : nat;
  getpixel : nat -> nat -> Z
}.

Definition size (im : image) : nat * nat := (width im, height im).

(** A decoded image file, seen through its RGB samples (a grey file has
    equal samples). *)
Record picture := Picture {
  pic_width : nat;
  pic_height : nat;
  pic_rgb : nat -> nat -> Z * Z * Z
}.

Inductive resample_filter := NEAREST | LANCZOS.

Inductive transpose_method := ROTATE_90 | ROTATE_180 | ROTATE_270.

(** The parts of Pillow that compute in floating point or walk the whole
    raster.  Each is typed so that the size of its result is the one Pillow
    gives it; nothing else is assumed of them. *)
Class Pillow := {
  (** pixel plane of [im.resize((w, h), flt)] *)
  resample : resample_filter -> image -> nat -> nat -> nat -> nat -> Z;
  (** the size [Image.thumbnail] settles on for an image that does not fit *)
  preserve_aspect_ratio : nat * nat -> nat * nat -> nat * nat;
  (** lookup table of [ImageOps.autocontrast] *)
  autocontrast_lut : image -> Z -> Z;
  (** grey level of the degenerate image of [ImageEnhance.Contrast] *)
  mean_level : image -> Z;
  (** one sample of [Image.blend(degenerate, image, factor)] *)
  blend : Z -> Z -> Z -> Z;
  (** pixel plane of [im.convert('1', dither=FLOYDSTEINBERG)] *)
  floyd_steinberg : image -> nat -> nat -> Z
}.

(** [ImageOps.grayscale]: ITU-R 601-2 luma, in Pillow's 16-bit fixed point. *)
Definition luma (p : Z * Z * Z) : Z :=
  let '(r, g, b) := p in
  Z.shiftr (r * 19595 + g * 38470 + b * 7471 + 32768) 16.

Definition ImageOps_grayscale (p : picture) : image :=
  Image L (pic_width p) (pic_height p) (fun x y => luma (pic_rgb p x y)).

(** [Image.new(mode, (w, h), color)] *)
Definition Image_new (m : image_mode) (w h : nat) (color : Z) : image :=
  Image m w h (fun _ _ => color).

(** [im.transpose(method)] for the three rotations. *)
Definition transpose (m : transpose_method) (im : image) : image :=
  match m with
  | ROTATE_90 =>
      Image (mode im) (height im) (width im)
            (fun x y => getpixel im (width im - 1 - y)%nat x)
  | ROTATE_180 =>
      Image (mode im) (width im) (height im)
            (fun x y => getpixel im (width im - 1 - x)%nat (height im - 1 - y)%nat)
  | ROTATE_270 =>
      Image (mode im) (height im) (width im)
            (fun x y => getpixel im y (height im - 1 - x)%nat)
  end.

(** [im.rotate(angle, expand=True)] at the multiples of 90 degrees, where
    Pillow transposes; [fillcolor] has nothing to fill there.  Other angles
    are not used by the scripts and are left as a copy. *)
Definition rotate (angle : Z) (im : image) : image :=
  let a := angle mod 360 in
  if a =? 90 then transpose ROTATE_90 im
  else if a =? 180 then transpose ROTATE_180 im
  else if a =? 270 then transpose ROTATE_270 im
  else im.

(** [im.point(f, mode=m)] *)
Definition point (f : Z -> Z) (m : image_mode) (im : image) : image :=
  Image m (width im) (height im) (fun x y => f (getpixel im x y)).

Section Kernels.
Context {K : Pillow}.

(** [im.resize((w, h), flt)] *)
Definition resize (w h : nat) (flt : resample_filter) (im : image) : image :=
  Image (mode im) w h (resample flt im w h).

(** [im.thumbnail((bw, bh), flt)]: untouched when it fits already. *)
Definition thumbnail (box : nat * nat) (flt : resample_filter) (im : image) : image :=
  if ((width im <=? fst box) && (height im <=? snd box))%nat then im
  else
    let '(w, h) := preserve_aspect_ratio (size im) box in
    if ((w =? width im) && (h =? height im))%nat then im
    else resize w h flt im.

(** [ImageOps.autocontrast(im)] *)
Definition ImageOps_autocontrast (im : image) : image :=
  point (autocontrast_lut im) (mode im) im.

(** [ImageEnhance.Contrast(im).enhance(factor)] *)
Definition Contrast_enhance (im : image) (factor : Z) : image :=
  let degenerate := mean_level im in
  point (fun p => blend degenerate p factor) (mode im) im.

(** [im.convert('1', dither=Image.FLOYDSTEINBERG)] *)
Definition convert_1 (im : image) : image :=
  Image Bilevel (width im) (height im) (floyd_steinberg im).
End Kernels.

(** [im.tobytes()].  A bilevel raster packs eight pixels per byte, leftmost
    pixel in the high bit, a set bit for every non-zero pixel, each row
    padded with clear bits to a whole byte.  A grey raster is one byte per
    pixel. *)
Definition bit (im : image) (y x : nat) : bool :=
  (x <? width im)%nat && negb (getpixel im x y =? 0).

Definition pack_byte (im : image) (y k : nat) : ascii :=
  let b i := bit im y (8 * k + i)%nat in
  Ascii (b 7%nat) (b 6%nat) (b 5%nat) (b 4%nat) (b 3%nat) (b 2%nat) (b 1%nat) (b 0%nat).

Definition row_bytes (im : image) (y : nat) : bytes :=
  match mode im with
  | Bilevel => map (pack_byte im y) (seq 0 ((width im + 7) / 8))
  | L => map (fun x => ascii_of_N (Z.to_N (getpixel im x y mod 256))) (seq 0 (width im))
  end.

Definition tobytes (im : image) : bytes :=
  flat_map (row_bytes im) (seq 0 (height im)).

(** Bytes in a row of a raster. *)
Definition stride (im : image) : nat :=
  match mode im with
  | Bilevel => (width im + 7) / 8
  | L => width im
  end.

(** ** The world outside the scripts, and Python's control flow *)

Inductive exn_class := OSError | ValueError | SerialException.

Record exn := Exception { exn_class_of : exn_class; exn_msg : string }.

Inductive outcome (A : Type) :=
| Return (a : A)
| Raise (e : exn).
Arguments Return {A} a.
Arguments Raise {A} e.

(** A TrueType face loaded at one size: the box of a text laid out at the
    origin, and the pixels a text covers when drawn at an anchor. *)
Record font := Font {
  font_textbbox : string -> outcome (Z * Z * Z * Z);
  font_text_mask : string -> Z * Z -> outcome (nat -> nat -> bool)
}.

(** How a serial device answers; [inl msg] is a failure, which pySerial
    raises as [SerialException(msg)]. *)
Record serial_device := SerialDevice {
  dev_open : string + unit;
  dev_write : bytes -> string + unit;
  dev_readline : string + bytes
}.

Inductive event :=
| Shown (title : string) (im : image)
| Printed (line : string)
| PrintedBytes (b : bytes)
| SerialOpen (device : string) (baudrate timeout : Z)
| SerialWrite (device : string) (data : bytes)
| SerialReadline (device : string)
| SerialClose (device : string).

Record world := World {
  files : string -> outcome picture;
  fonts : string -> Z -> outcome font;
  devices : string -> serial_device;
  trace : list event
}.

Definition M (A : Type) : Type := world -> outcome A * world.

Definition ret {A} (a : A) : M A := fun w => (Return a, w).

Definition bind {A B} (m : M A) (f : A -> M B) : M B :=
  fun w =>
    match m w with
    | (Return a, w') => f a w'
    | (Raise e, w') => (Raise e, w')
    end.

Declare Scope py_scope.
Delimit Scope py_scope with py.
Notation "x <- m ;; k" := (bind m (fun x => k))
  (at level 61, m at next level, right associativity) : py_scope.
Notation "m ;; k" := (bind m (fun _ => k))
  (at level 61, right associativity) : py_scope.
Local Open Scope py_scope.

Definition raise {A} (e : exn) : M A := fun w => (Raise e, w).

Definition lift {A} (o : outcome A) : M A := fun w => (o, w).

Definition read {A} (f : world -> A) : M A := fun w => (Return (f w), w).

Definition emit (ev : event) : M unit :=
  fun w => (Return tt, World (files w) (fonts w) (devices w) (trace w ++ [ev])).

Definition exn_class_eqb (a b : exn_class) : bool :=
  match a, b with
  | OSError, OSError | ValueError, ValueError
  | SerialException, SerialException => true
  | _, _ => false
  end.

(** [try: body  except cls as exc: handler(exc)] *)
Definition try_except {A} (body : M A) (cls : exn_class) (handler : exn -> M A) : M A :=
  fun w =>
    match body w with
    | (Return a, w') => (Return a, w')
    | (Raise e, w') =>
        if exn_class_eqb (exn_class_of e) cls then handler e w' else (Raise e, w')
    end.

(** [with cm as x: body(x)] for a context manager whose exit is [release]. *)
Definition with_ {R A} (acquire : M R) (release : R -> M unit) (body : R -> M A) : M A :=
  x <- acquire ;;
  fun w =>
    match body x w with
    | (Return a, w') =>
        match release x w' with
        | (Return _, w'') => (Return a, w'')
        | (Raise e, w'') => (Raise e, w'')
        end
    | (Raise e, w') =>
        match release x w' with
        | (Return _, w'') => (Raise e, w'')
        | (Raise e', w'') => (Raise e', w'')
        end
    end.

(** [print(text)] and [print(b)] for a [bytes] object. *)
Definition print (line : string) : M unit := emit (Printed line).
Definition print_bytes (b : bytes) : M unit := emit (PrintedBytes b).

(** [Image.open(path)] *)
Definition Image_open (path : string) : M picture :=
  f <- read files ;; lift (f path).

(** [im.show(title=...)]: hands the raster to the viewer, leaves it as it is. *)
Definition show (im : image) (title : string) : M unit := emit (Shown title im).

(** [ImageFont.truetype(font_path, font_size)] *)
Definition ImageFont_truetype (font_path : string) (font_size : Z) : M font :=
  f <- read fonts ;; lift (f font_path font_size).

(** [draw.textbbox((0, 0), text, font=font)] *)
Definition textbbox (text : string) (f : font) : M (Z * Z * Z * Z) :=
  lift (font_textbbox f text).

(** [draw.text(xy, text, font=font, fill=fill)] on the raster [draw]
    was made for: the covered pixels take the fill colour. *)
Definition draw_text (im : image) (xy : Z * Z) (text : string) (f : font) (fill : Z)
  : M image :=
  mask <- lift (font_text_mask f text xy) ;;
  ret (Image (mode im) (width im) (height im)
             (fun x y => if mask x y then fill else getpixel im x y)).

Definition serial_raise {A} (r : string + A) : M A :=
  match r with
  | inl msg => raise (Exception SerialException msg)
  | inr a => ret a
  end.

(** [serial.Serial(device, baudrate, timeout=timeout)]: opens the port;
    the value is the open port, named by its device. *)
Definition Serial (device : string) (baudrate timeout : Z) : M string :=
  emit (SerialOpen device baudrate timeout) ;;
  d <- read devices ;;
  serial_raise (dev_open (d device)) ;;
  ret device.

Definition Serial_write (s : string) (data : bytes) : M unit :=
  emit (SerialWrite s data) ;;
  d <- read devices ;;
  serial_raise (dev_write (d s) data).

Definition Serial_readline (s : string) : M bytes :=
  emit (SerialReadline s) ;;
  d <- read devices ;;
  serial_raise (dev_readline (d s)).

Definition Serial_close (s : string) : M unit := emit (SerialClose s).

(** ** An executable instance of the kernels

    Integer renditions of the six kernels, so that the scripts can be run
    inside Rocq on concrete files.  The theorems below are stated for every
    instance of [Pillow]; this one only supplies concrete runs. *)

Definition clip8 (v : Z) : Z := Z.max 0 (Z.min 255 v).

(** Nearest neighbour: the source pixel under the centre of the target pixel. *)
Definition nearest (im : image) (w h x y : nat) : Z :=
  getpixel im ((2 * x + 1) * width im / (2 * w))%nat
              ((2 * y + 1) * height im / (2 * h))%nat.

(** The candidate among floor and ceiling of [a/b] closest to it, at least 1. *)
Definition round_aspect (a b : nat) : nat :=
  let lo := (a / b)%nat in
  let hi := if (a mod b =? 0)%nat then lo else S lo in
  Nat.max 1 (if (hi * b - a <? a - lo * b)%nat then hi else lo).

Definition fit_in_box (sz box : nat * nat) : nat * nat :=
  let '(w, h) := sz in
  let '(x, y) := box in
  if (w * y <=? x * h)%nat then (round_aspect (y * w) h, y)
  else (x, round_aspect (x * h) w).

Definition samples (im : image) : list Z :=
  flat_map (fun y => map (fun x => getpixel im x y) (seq 0 (width im)))
           (seq 0 (height im)).

(** Histogram stretch between the darkest and the lightest sample. *)
Definition stretch_lut (im : image) (p : Z) : Z :=
  let lo := fold_right Z.min 255 (samples im) in
  let hi := fold_right Z.max 0 (samples im) in
  if hi <=? lo then p else clip8 ((p - lo) * 255 / (hi - lo)).

Definition rounded_mean (im : image) : Z :=
  let n := Z.of_nat (width im * height im) in
  if n =? 0 then 0 else (2 * fold_right Z.add 0 (samples im) + n) / (2 * n).

Definition extrapolate (degenerate p factor : Z) : Z :=
  clip8 (degenerate + factor * (p - degenerate)).

(** One row of error diffusion: the bilevel row and the errors handed to
    the next row. *)
Fixpoint diffuse_row (row errors : list Z) (l l0 l1 : Z) : list Z * list Z :=
  match row with
  | [] => ([], [l0])
  | p :: row' =>
      let l := clip8 (p + Z.quot (l + hd 0 errors) 16) in
      let out := if l >? 128 then 255 else 0 in
      let l := l - out in
      let l2 := l in
      let d2 := l + l in
      let l := l + d2 in
      let e := l + l0 in
      let l := l + d2 in
      let l0 := l + l1 in
      let l1 := l2 in
      let l := l + d2 in
      let '(outs, errs) := diffuse_row row' (tl errors) l l0 l1 in
      (out :: outs, e :: errs)
  end.

Fixpoint diffuse_rows (rows : list (list Z)) (errors : list Z) : list (list Z) :=
  match rows with
  | [] => []
  | row :: rows' =>
      let '(outs, errs) := diffuse_row row (tl errors) 0 0 0 in
      outs :: diffuse_rows rows' errs
  end.

Definition error_diffusion (im : image) (x y : nat) : Z :=
  let rows := map (fun y => map (fun x => getpixel im x y) (seq 0 (width im)))
                  (seq 0 (height im)) in
  nth x (nth y (diffuse_rows rows (repeat 0 (S (width im)))) []) 0.

Definition integer_kernels : Pillow := {|
  resample := fun _ => nearest;
  preserve_aspect_ratio := fit_in_box;
  autocontrast_lut := stretch_lut;
  mean_level := rounded_mean;
  blend := extrapolate;
  floyd_steinberg := error_diffusion
|}.

(** ** [p21.py] *)

Module P21.
Section Script.
Context {K : Pillow}.

Definition LABEL_WIDTH_PX : nat := 284.
Definition LABEL_HEIGHT_PX : nat := 96.
Definition ROTATED_WIDTH_PX : nat := LABEL_HEIGHT_PX.
Definition ROTATED_HEIGHT_PX : nat := LABEL_WIDTH_PX.
Definition BYTES_PER_ROW : nat := ROTATED_WIDTH_PX / 8.
Definition EXPECTED_BYTES : nat := ROTATED_HEIGHT_PX * BYTES_PER_ROW.

Definition DEFAULT_FONT_PATH : string :=
  "/usr/share/fonts/truetype/dejavu/DejaVuSans-Bold.ttf".
Definition DEFAULT_FONT_SIZE : Z := 30.
Definition DEFAULT_DENSITY : Z := 7.
Definition DEFAULT_COPIES : Z := 1.
Definition DEFAULT_DEVICE : string := "/dev/rfcomm0".
(** default of [load_image]'s [threshold] *)
Definition DEFAULT_THRESHOLD : Z := 180.

(** Lines 35-36: the longer side is made vertical. *)
Definition upright (img : image) : image :=
  if (height img <? width img)%nat then rotate 90 img else img.

(** Line 39: [img.point(lambda p: 0 if p < threshold else 255, mode="1")]. *)
Definition binarise (threshold : Z) (img : image) : image :=
  point (fun p => if p <? threshold then 0 else 255) Bilevel img.

(** Lines 45-48 and 91-94: the packed bytes brought to [EXPECTED_BYTES]. *)
Definition fit_buffer (bitdata : bytes) : bytes :=
  if len bitdata <? Z.of_nat EXPECTED_BYTES then
    ljust bitdata (Z.of_nat EXPECTED_BYTES) xFF
  else if len bitdata >? Z.of_nat EXPECTED_BYTES then
    slice_to bitdata (Z.of_nat EXPECTED_BYTES)
  else bitdata.

Definition load_image (image_path : string) (preview : bool) (threshold : Z) : M bytes :=
  img <- Image_open image_path ;;
  let img := ImageOps_grayscale img in
  let img := upright img in
  let img := thumbnail (ROTATED_WIDTH_PX, ROTATED_HEIGHT_PX) LANCZOS img in
  let img := binarise threshold img in
  (if preview then
     show (rotate (-90) img) "Image label (printer orientation 96×284)"
   else ret tt) ;;
  let bitdata := tobytes img in
  ret (fit_buffer bitdata).

(** Lines 87-88: anything but 96x284 is rescaled without smoothing. *)
Definition force_size (rotated : image) : image :=
  if negb ((width rotated =? ROTATED_WIDTH_PX) && (height rotated =? ROTATED_HEIGHT_PX))%nat
  then resize ROTATED_WIDTH_PX ROTATED_HEIGHT_PX NEAREST rotated
  else rotated.

(** Lines 68-79: the canvas in reading orientation, text drawn on it. *)
Definition draw_label (text : string) (width height : nat)
           (font_path : string) (font_size : Z) : M image :=
  let img := Image_new Bilevel width height 1 in
  font <- ImageFont_truetype font_path font_size ;;
  bbox <- textbbox text font ;;
  let '(b0, b1, b2, b3) := bbox in
  let text_w := b2 - b0 in
  let text_h := b3 - b1 in
  let x := (Z.of_nat width - text_w) / 2 - b0 in
  let y := (Z.of_nat height - text_h) / 2 - b1 in
  draw_text img (x, y) text font 0.

Definition render_text_label (text : string) (width height : nat)
           (font_path : string) (font_size : Z) (preview : bool) : M bytes :=
  img <- draw_label text width height font_path font_size ;;
  (if preview then show img "Text label (readable orientation)" else ret tt) ;;
  let rotated := rotate (-90) img in
  let rotated := force_size rotated in
  let bitdata := tobytes rotated in
  ret (fit_buffer bitdata).

Definition header (density : Z) : string :=
  "SIZE 14.0 mm,40.0 mm" ++ CRLF ++
  "GAP 5.0 mm,0 mm" ++ CRLF ++
  "DIRECTION 1,1" ++ CRLF ++
  "DENSITY " ++ str density ++ CRLF ++
  "CLS" ++ CRLF ++
  "BITMAP 0,0," ++ str (Z.of_nat BYTES_PER_ROW) ++ ","
                ++ str (Z.of_nat ROTATED_HEIGHT_PX) ++ ",0,".

Definition footer (copies : Z) : string :=
  CRLF ++ "PRINT " ++ str copies ++ CRLF.

Definition build_print_command (imagedata : bytes) (density copies : Z) : bytes :=
  encode (header density) ++ imagedata ++ encode (footer copies).

Definition send_to_printer (device : string) (payload : bytes) : M (option bytes) :=
  try_except
    (with_ (Serial device 115200 3) Serial_close
       (fun s =>
          Serial_write s payload ;;
          line <- Serial_readline s ;;
          ret (Some line)))
    SerialException
    (fun exc =>
       print ("Serial error: " ++ exn_msg exc) ;;
       ret None).

(** What [parse_args] hands to [main]: exactly one of [--image] and
    [--text], and the options with their defaults filled in. *)
Record args := Args {
  args_input : string + string;
  args_font_size : Z;
  args_font_path : string;
  args_density : Z;
  args_copies : Z;
  args_device : string;
  args_preview_only : bool
}.

(** Lines 196-204 and 208-216: the rasterizer picked by the arguments. *)
Definition rasterize (a : args) (preview : bool) : M bytes :=
  match args_input a with
  | inl image => load_image image preview DEFAULT_THRESHOLD
  | inr text =>
      render_text_label text LABEL_WIDTH_PX LABEL_HEIGHT_PX
                        (args_font_path a) (args_font_size a) preview
  end.

Definition main (a : args) : M unit :=
  if args_preview_only a then
    rasterize a true ;; ret tt
  else
    bitdata <- rasterize a false ;;
    let command := build_print_command bitdata (args_density a) (args_copies a) in
    response <- send_to_printer (args_device a) command ;;
    match response with
    | Some r => print_bytes r
    | None => ret tt
    end.
End Script.
End P21.

(** ** [simple_print.py] *)

Module SimplePrint.
Section Script.
Context {K : Pillow}.

Definition load_image (image : string) : M bytes :=
  image <- Image_open image ;;
  let image := ImageOps_grayscale image in
  let image := ImageOps_autocontrast image in
  let image := Contrast_enhance image 2 in
  let image := if (height image <? width image)%nat then rotate 90 image else image in
  let image := thumbnail (96, 284)%nat NEAREST image in
  let image := convert_1 image in
  let bitdata := tobytes image in
  let bitdata :=
    if len bitdata <? 3408 then ljust bitdata (3408 - len bitdata) xFF else bitdata in
  ret bitdata.

Definition header (density : Z) : string :=
  "SIZE 14.0 mm,40.0 mm" ++ CRLF ++
  "GAP 5.0 mm,0 mm" ++ CRLF ++
  "DIRECTION 1,1" ++ CRLF ++
  "DENSITY " ++ str density ++ CRLF ++
  "CLS" ++ CRLF ++
  "BITMAP 0,0,12,284,1,".

Definition footer (copies : Z) : string :=
  CRLF ++ "PRINT " ++ str copies ++ CRLF.

Definition build_print_command (imagedata : bytes) (density copies : Z) : bytes :=
  let serial_data := encode (header density) ++ imagedata ++ encode (footer copies) in
  serial_data.

(** Lines 38-45, the body of the script. *)
Definition script : M unit :=
  bitdata <- load_image "test-template-2.png" ;;
  let command := build_print_command bitdata 7 1 in
  s <- Serial "/dev/rfcomm0" 115200 3 ;;
  Serial_write s command ;;
  response <- Serial_readline s ;;
  print_bytes response ;;
  Serial_close s.
End Script.
End SimplePrint.

(** ** The wire format in the words of the specification *)

(** One CRLF-terminated line. *)
Definition line (content : bytes) : bytes := content ++ encode CRLF.

(** The seven lines of a print job; [flag] is the mode flag that closes the
    [BITMAP] declaration, the raw bitmap follows it on the same line. *)
Definition wire_format (flag : string) (bitmap : bytes) (density copies : Z) : bytes :=
  line (encode "SIZE 14.0 mm,40.0 mm") ++
  line (encode "GAP 5.0 mm,0 mm") ++
  line (encode "DIRECTION 1,1") ++
  line (encode ("DENSITY " ++ str density)) ++
  line (encode "CLS") ++
  line (encode ("BITMAP 0,0,12,284," ++ flag ++ ",") ++ bitmap) ++
  line (encode ("PRINT " ++ str copies)).

(** Reading a decimal numeral back. *)
Definition int_of_str (s : string) : option Z :=
  option_map Z.of_int (NilZero.int_of_string s).

(** The [n] bytes of a command that follow its first [skip] bytes. *)
Definition bytes_at (skip n : nat) (command : bytes) : bytes :=
  firstn n (skipn skip command).

(** ** Vocabulary of the statements *)

(** The world after some more events. *)
Definition log (w : world) (evs : list event) : world :=
  World (files w) (fonts w) (devices w) (trace w ++ evs).

(** A bilevel raster that is the pixel-by-pixel comparison of a grey
    raster with a cutoff: clear bit (black) below it, set bit (white) from
    it on. *)
Definition thresholded (cutoff : Z) (grey bw : image) : Prop :=
  size bw = size grey /\
  forall x y, (x < width grey)%nat -> (y < height grey)%nat ->
    bit bw y x = negb (getpixel grey x y <? cutoff).

(** The device cannot be opened, or opens and refuses the payload. *)
Inductive device_fails (d : serial_device) (payload : bytes) (msg : string) : Prop :=
| fails_to_open : dev_open d = inl msg -> device_fails d payload msg
| fails_to_write :
    dev_open d = inr tt -> dev_write d payload = inl msg -> device_fails d payload msg.

(** A run in which a failure was caught and logged: it ends normally, a
    diagnostic line was printed, no response was. *)
Definition caught_and_logged {A} (before : world) (run : outcome A * world) : Prop :=
  (exists a, fst run = Return a)
  /\ (exists evs line, trace (snd run) = trace before ++ evs /\ In (Printed line) evs
                       /\ forall b, ~ In (PrintedBytes b) evs).

(** ** Concrete files, faces and devices *)

(** An image file of one grey level. *)
Definition flat_picture (w h : nat) (v : Z) : picture :=
  Picture w h (fun _ _ => (v, v, v)).

(** A face whose glyphs are solid blocks, 8 wide and 10 high. *)
Definition block_font : font :=
  Font (fun text => Return (0, 0, 8 * Z.of_nat (String.length text), 10))
       (fun text xy => Return (fun x y =>
          (fst xy <=? Z.of_nat x) && (Z.of_nat x <? fst xy + 8 * Z.of_nat (String.length text))
          && (snd xy <=? Z.of_nat y) && (Z.of_nat y <? snd xy + 10))).

Definition dead_port : serial_device :=
  SerialDevice (inl "could not open port"%string) (fun _ => inr tt) (inr []).

Definition stuck_port : serial_device :=
  SerialDevice (inr tt) (fun _ => inl "write failed"%string) (inr []).

(** A world with one picture under every path, [block_font] under every
    font path, and one device behaviour under every device name. *)
Definition bench (pic : picture) (port : serial_device) : world :=
  World (fun _ => Return pic) (fun _ _ => Return block_font) (fun _ => port) [].

(** The value of a run that returned, [d] otherwise. *)
Definition returned {A} (d : A) (run : outcome A * world) : A :=
  match fst run with
  | Return a => a
  | Raise _ => d
  end.

(** The file handed to the runs below: 8 by 8 pixels, all white. *)
Definition small_white : picture := flat_picture 8 8 255.

(** The grey raster [simple_print.py] derives, under [integer_kernels], from
    a file of a single pixel of level 150: grey, stretched, enhanced,
    unrotated and not downscaled. *)
Definition mid_grey : image :=
  thumbnail (K := integer_kernels) (96, 284)%nat NEAREST
    (P21.upright
       (Contrast_enhance (K := integer_kernels)
          (ImageOps_autocontrast (K := integer_kernels)
             (ImageOps_grayscale (flat_picture 1 1 150))) 2)).

(** Arguments as [parse_args] gives them for [-i label.png]. *)
Definition image_job : P21.args :=
  P21.Args (inl "label.png"%string) P21.DEFAULT_FONT_SIZE P21.DEFAULT_FONT_PATH
           P21.DEFAULT_DENSITY P21.DEFAULT_COPIES P21.DEFAULT_DEVICE false.

(** The label [p21.py] draws for the text [A] with [block_font]. *)
Definition block_label : image :=
  returned (Image_new Bilevel 0 0 1)
    (P21.draw_label "A" P21.LABEL_WIDTH_PX P21.LABEL_HEIGHT_PX
                    P21.DEFAULT_FONT_PATH P21.DEFAULT_FONT_SIZE
                    (bench small_white dead_port)).

(** ** Vocabulary of the further statements *)

(** Bit [i] of a byte counted from the left, the high bit first. *)
Definition bit_of_byte (a : ascii) (i : nat) : bool :=
  N.testbit (N_of_ascii a) (N.of_nat (7 - i)).

Definition is_open (ev : event) : bool :=
  match ev with SerialOpen _ _ _ => true | _ => false end.

Definition is_close (ev : event) : bool :=
  match ev with SerialClose _ => true | _ => false end.


Definition count_events (p : event -> bool) (evs : list event) : nat :=
  List.length (filter p evs).

(** A port that takes the payload and answers with one line. *)
Definition answering_port (answer : bytes) : serial_device :=
  SerialDevice (inr tt) (fun _ => inr tt) (inr answer).

(** A port that takes the payload and then fails on the read. *)
Definition deaf_port : serial_device :=
  SerialDevice (inr tt) (fun _ => inr tt) (inl "device disconnected"%string).

(** A world without any file or font. *)
Definition bare_desk (port : serial_device) : world :=
  World (fun _ => Raise (Exception OSError "No such file or directory"))
        (fun _ _ => Raise (Exception OSError "cannot open resource"))
        (fun _ => port) [].

(** The label [p21.py] draws for the text [A] on a canvas of 100 by 50. *)
Definition small_label : image :=
  returned (Image_new Bilevel 0 0 1)
    (P21.draw_label "A" 100 50 P21.DEFAULT_FONT_PATH P21.DEFAULT_FONT_SIZE
                    (bench small_white dead_port)).


(** * Properties *)

(** ** Bytes and numerals *)

Lemma encode_app (s t : string) : encode (s ++ t) = encode s ++ encode t.
Proof.
  induction s as [|c s IH]; simpl; [reflexivity|].
  unfold encode in *. simpl. now rewrite IH.
Qed.

Lemma int_of_str_str (n : Z) : int_of_str (str n) = Some n.
Proof.
  unfold int_of_str, str.
  rewrite NilZero.isi.
  - simpl. now rewrite DecimalZ.of_to.
  - destruct n; simpl; try discriminate.
    intros H. injection H as H. now apply DecimalPos.Unsigned.to_uint_nonnil in H.
  - destruct n; simpl; try discriminate.
    intros H. injection H as H. now apply DecimalPos.Unsigned.to_uint_nonnil in H.
Qed.

Lemma str_inj (n m : Z) : str n = str m -> n = m.
Proof.
  intros H. apply (f_equal int_of_str) in H.
  rewrite !int_of_str_str in H. now injection H.
Qed.

Lemma uint_no_CR (d : Decimal.uint) : ~ In CR (encode (NilEmpty.string_of_uint d)).
Proof.
  induction d; simpl; intros H; try (destruct H as [H|H]; [discriminate H | tauto]).
  exact H.
Qed.

Lemma str_no_CR (n : Z) : ~ In CR (encode (str n)).
Proof.
  assert (U : forall d, ~ In CR (encode (NilZero.string_of_uint d))).
  { intros d. destruct d; try apply uint_no_CR.
    simpl. intros [H|[]]. discriminate H. }
  unfold str. destruct (Z.to_int n) as [d|d]; simpl.
  - apply U.
  - intros [H|H]; [discriminate H | now apply U in H].
Qed.

(** Two texts that end at the same delimiter and do not contain it. *)
Lemma split_at_delimiter {A} (a : A) (l1 l2 r1 r2 : list A) :
  ~ In a l1 -> ~ In a l2 -> l1 ++ a :: r1 = l2 ++ a :: r2 -> l1 = l2 /\ r1 = r2.
Proof.
  revert l2. induction l1 as [|x l1 IH]; intros [|y l2] N1 N2 E; simpl in *.
  - injection E as E. now split.
  - injection E as E _. subst. tauto.
  - injection E as E _. subst. tauto.
  - injection E as E1 E2. subst y.
    destruct (IH l2) as [-> ->]; tauto.
Qed.

(** ** The command framer *)

Lemma P21_header_lines (density : Z) :
  encode (P21.header density) =
  line (encode "SIZE 14.0 mm,40.0 mm") ++
  line (encode "GAP 5.0 mm,0 mm") ++
  line (encode "DIRECTION 1,1") ++
  line (encode ("DENSITY " ++ str density)) ++
  line (encode "CLS") ++
  encode "BITMAP 0,0,12,284,0,".
Proof.
  unfold P21.header, line.
  change (str (Z.of_nat P21.BYTES_PER_ROW)) with "12"%string.
  change (str (Z.of_nat P21.ROTATED_HEIGHT_PX)) with "284"%string.
  rewrite !encode_app. simpl. rewrite <- !app_assoc. reflexivity.
Qed.

Lemma SimplePrint_header_lines (density : Z) :
  encode (SimplePrint.header density) =
  line (encode "SIZE 14.0 mm,40.0 mm") ++
  line (encode "GAP 5.0 mm,0 mm") ++
  line (encode "DIRECTION 1,1") ++
  line (encode ("DENSITY " ++ str density)) ++
  line (encode "CLS") ++
  encode "BITMAP 0,0,12,284,1,".
Proof.
  unfold SimplePrint.header, line.
  rewrite !encode_app. simpl. rewrite <- !app_assoc. reflexivity.
Qed.

Lemma footer_line (copies : Z) :
  encode (P21.footer copies) = encode CRLF ++ line (encode ("PRINT " ++ str copies)).
Proof.
  unfold P21.footer, line. rewrite !encode_app. reflexivity.
Qed.

Lemma P21_command_lines (bitmap : bytes) (density copies : Z) :
  P21.build_print_command bitmap density copies
    = wire_format "0" bitmap density copies.
Proof.
  unfold P21.build_print_command, wire_format.
  rewrite P21_header_lines, footer_line.
  unfold line. simpl. rewrite <- !app_assoc. reflexivity.
Qed.

Lemma SimplePrint_command_lines (bitmap : bytes) (density copies : Z) :
  SimplePrint.build_print_command bitmap density copies
    = wire_format "1" bitmap density copies.
Proof.
  unfold SimplePrint.build_print_command, wire_format.
  change (SimplePrint.footer copies) with (P21.footer copies).
  rewrite SimplePrint_header_lines, footer_line.
  unfold line. simpl. rewrite <- !app_assoc. reflexivity.
Qed.

(** C2, as amended: for every bitmap, density and copies the framer of
    [p21.py] emits exactly the CRLF-terminated lines [SIZE 14.0 mm,40.0 mm],
    [GAP 5.0 mm,0 mm], [DIRECTION 1,1], [DENSITY <n>], [CLS], then
    [BITMAP 0,0,12,284,0,] followed at once by the raw bitmap and a CRLF,
    and ends with [PRINT <copies>] and a CRLF; the framer of
    [simple_print.py] emits the same bytes except that the mode flag of the
    [BITMAP] declaration is 1. *)
Theorem framer_wire_format (bitmap : bytes) (density copies : Z) :
  P21.build_print_command bitmap density copies
    = wire_format "0" bitmap density copies
  /\ SimplePrint.build_print_command bitmap density copies
    = wire_format "1" bitmap density copies.
Proof.
  split; [apply P21_command_lines | apply SimplePrint_command_lines].
Qed.

(** C2 as stated fails on [simple_print.py]: for the empty bitmap, density
    7 and one copy its framer does not emit the [BITMAP 0,0,12,284,0,]
    declaration of the wire format. *)
Lemma simple_print_mode_flag :
  SimplePrint.build_print_command [] 7 1 <> wire_format "0" [] 7 1.
Proof. vm_compute. discriminate. Qed.

(** C3: for every bitmap, density and copies, in both scripts, the command
    is the header, the bitmap and the footer in a row, and the bytes read
    back from the command at the end of the header are the bitmap itself,
    unchanged. *)
Theorem framer_round_trip (bitmap : bytes) (density copies : Z) :
  (P21.build_print_command bitmap density copies
     = encode (P21.header density) ++ bitmap ++ encode (P21.footer copies)
   /\ bytes_at (List.length (encode (P21.header density))) (List.length bitmap)
               (P21.build_print_command bitmap density copies) = bitmap)
  /\
  (SimplePrint.build_print_command bitmap density copies
     = encode (SimplePrint.header density) ++ bitmap ++ encode (SimplePrint.footer copies)
   /\ bytes_at (List.length (encode (SimplePrint.header density))) (List.length bitmap)
               (SimplePrint.build_print_command bitmap density copies) = bitmap).
Proof.
  assert (R : forall h f : bytes,
             bytes_at (List.length h) (List.length bitmap) (h ++ bitmap ++ f) = bitmap).
  { intros h f. unfold bytes_at.
    rewrite skipn_app, skipn_all, Nat.sub_diag. simpl.
    rewrite firstn_app, firstn_all, Nat.sub_diag. simpl. apply app_nil_r. }
  split; (split; [reflexivity | apply R]).
Qed.

(** Distinct values give distinct commands. *)
Lemma wire_format_inj (flag : string) (bitmap : bytes) (d c d' c' : Z) :
  wire_format flag bitmap d c = wire_format flag bitmap d' c' -> d = d' /\ c = c'.
Proof.
  unfold wire_format, line. intros E.
  repeat (apply app_inv_head in E || rewrite <- app_assoc in E).
  rewrite !encode_app in E. rewrite <- !app_assoc in E.
  apply app_inv_head in E.
  change (encode CRLF) with (CR :: [LF]) in E. simpl in E.
  apply split_at_delimiter in E; try apply str_no_CR.
  destruct E as [Ed E]. split.
  - apply str_inj. rewrite <- (string_of_list_ascii_of_string (str d)).
    rewrite <- (string_of_list_ascii_of_string (str d')).
    unfold encode in Ed. now rewrite Ed.
  - injection E as E.
    repeat (apply app_inv_head in E || rewrite <- app_assoc in E).
    injection E as E. apply app_inv_head in E.
    repeat (injection E as E). apply app_inv_tail in E.
    apply str_inj. rewrite <- (string_of_list_ascii_of_string (str c)).
    rewrite <- (string_of_list_ascii_of_string (str c')).
    unfold encode in E. now rewrite E.
Qed.

(** C6: for every integer density and copies, in range or not, both
    framers return a command (they are total), the command holds the line
    [DENSITY <density>] and ends with the line [PRINT <copies>], the
    numerals read back as the very integers given, and two commands for
    the same bitmap are equal only if density and copies are: nothing is
    checked, clamped or rejected. *)
Theorem framer_passes_values_through (bitmap : bytes) (density copies : Z) :
  int_of_str (str density) = Some density
  /\ int_of_str (str copies) = Some copies
  /\ (exists head middle,
        P21.build_print_command bitmap density copies
        = head ++ line (encode ("DENSITY " ++ str density)) ++ middle
               ++ line (encode ("PRINT " ++ str copies)))
  /\ (forall d' c',
        P21.build_print_command bitmap density copies
        = P21.build_print_command bitmap d' c' -> density = d' /\ copies = c')
  /\ (exists head middle,
        SimplePrint.build_print_command bitmap density copies
        = head ++ line (encode ("DENSITY " ++ str density)) ++ middle
               ++ line (encode ("PRINT " ++ str copies)))
  /\ (forall d' c',
        SimplePrint.build_print_command bitmap density copies
        = SimplePrint.build_print_command bitmap d' c' -> density = d' /\ copies = c').
Proof.
  split; [apply int_of_str_str|]. split; [apply int_of_str_str|].
  pose proof (P21_command_lines bitmap density copies) as E0.
  pose proof (SimplePrint_command_lines bitmap density copies) as E1.
  split; [|split; [|split]].
  - exists (line (encode "SIZE 14.0 mm,40.0 mm") ++ line (encode "GAP 5.0 mm,0 mm")
             ++ line (encode "DIRECTION 1,1")),
           (line (encode "CLS") ++ line (encode ("BITMAP 0,0,12,284,0,") ++ bitmap)).
    rewrite E0. unfold wire_format. rewrite <- !app_assoc. reflexivity.
  - intros d' c' E. rewrite E0, P21_command_lines in E.
    now apply wire_format_inj in E.
  - exists (line (encode "SIZE 14.0 mm,40.0 mm") ++ line (encode "GAP 5.0 mm,0 mm")
             ++ line (encode "DIRECTION 1,1")),
           (line (encode "CLS") ++ line (encode ("BITMAP 0,0,12,284,1,") ++ bitmap)).
    rewrite E1. unfold wire_format. rewrite <- !app_assoc. reflexivity.
  - intros d' c' E. rewrite E1, SimplePrint_command_lines in E.
    now apply wire_format_inj in E.
Qed.

(** ** Packed bytes *)

Lemma flat_map_length_const {A B} (f : A -> list B) (n : nat) (l : list A) :
  (forall a, In a l -> List.length (f a) = n) ->
  List.length (flat_map f l) = (List.length l * n)%nat.
Proof.
  induction l as [|a l IH]; intros H; simpl; [reflexivity|].
  rewrite length_app, H by (left; reflexivity).
  rewrite IH by (intros; apply H; right; assumption). reflexivity.
Qed.

Lemma map_all_equal {A B} (f : A -> B) (b : B) (l : list A) :
  (forall a, In a l -> f a = b) -> map f l = repeat b (List.length l).
Proof.
  induction l as [|a l IH]; intros H; simpl; [reflexivity|].
  rewrite H by (left; reflexivity).
  rewrite IH by (intros; apply H; right; assumption). reflexivity.
Qed.

Lemma flat_map_all_equal {A B} (f : A -> list B) (b : B) (n : nat) (l : list A) :
  (forall a, In a l -> f a = repeat b n) ->
  flat_map f l = repeat b (List.length l * n).
Proof.
  induction l as [|a l IH]; intros H; simpl; [reflexivity|].
  rewrite H by (left; reflexivity).
  rewrite IH by (intros; apply H; right; assumption). now rewrite repeat_app.
Qed.

Lemma length_tobytes (im : image) :
  List.length (tobytes im) = (height im * stride im)%nat.
Proof.
  unfold tobytes. rewrite (flat_map_length_const _ (stride im)).
  - now rewrite length_seq.
  - intros y _. unfold row_bytes, stride.
    destruct (mode im); now rewrite length_map, length_seq.
Qed.

Lemma pack_byte_white (im : image) (y k : nat) :
  (8 * k + 7 < width im)%nat ->
  (forall x, (x < width im)%nat -> getpixel im x y <> 0) ->
  pack_byte im y k = xFF.
Proof.
  intros Hk Hw. unfold pack_byte, xFF.
  assert (B : forall i, (i <= 7)%nat -> bit im y (8 * k + i) = true).
  { intros i Hi. unfold bit.
    assert (Hx : (8 * k + i < width im)%nat) by lia.
    apply Nat.ltb_lt in Hx as Hx'. rewrite Hx'. simpl.
    apply negb_true_iff, Z.eqb_neq, Hw, Hx. }
  rewrite !B by lia. reflexivity.
Qed.

Lemma tobytes_white (im : image) (n : nat) :
  mode im = Bilevel ->
  width im = (8 * n)%nat ->
  (forall x y, (x < width im)%nat -> (y < height im)%nat -> getpixel im x y <> 0) ->
  tobytes im = repeat xFF (height im * n).
Proof.
  intros Hm Hw Hp. unfold tobytes.
  rewrite (flat_map_all_equal _ xFF n).
  - now rewrite length_seq.
  - intros y Hy. apply in_seq in Hy. unfold row_bytes. rewrite Hm.
    replace ((width im + 7) / 8)%nat with n.
    2:{ rewrite Hw. apply Nat.div_unique with 7%nat; lia. }
    rewrite (map_all_equal _ xFF).
    + now rewrite length_seq.
    + intros k Hk. apply in_seq in Hk. apply pack_byte_white; [lia|].
      intros x Hx. apply Hp; lia.
Qed.

(** ** The two ways of bringing the packed bytes to 3408 *)

Lemma fit_buffer_length (b : bytes) : List.length (P21.fit_buffer b) = 3408%nat.
Proof.
  unfold P21.fit_buffer, ljust, slice_to, len.
  change (Z.of_nat P21.EXPECTED_BYTES) with 3408.
  destruct (Z.ltb_spec (Z.of_nat (List.length b)) 3408).
  - rewrite length_app, repeat_length. lia.
  - destruct (Z.gtb_spec (Z.of_nat (List.length b)) 3408).
    + rewrite length_firstn. lia.
    + lia.
Qed.

Lemma fit_buffer_short (b : bytes) :
  (List.length b < 3408)%nat ->
  P21.fit_buffer b = b ++ repeat xFF (3408 - List.length b).
Proof.
  intros H. unfold P21.fit_buffer, ljust, len.
  change (Z.of_nat P21.EXPECTED_BYTES) with 3408.
  destruct (Z.ltb_spec (Z.of_nat (List.length b)) 3408); [|lia].
  f_equal. f_equal. lia.
Qed.

Lemma fit_buffer_long (b : bytes) :
  (3408 < List.length b)%nat -> P21.fit_buffer b = firstn 3408 b.
Proof.
  intros H. unfold P21.fit_buffer, slice_to, len.
  change (Z.of_nat P21.EXPECTED_BYTES) with 3408.
  destruct (Z.ltb_spec (Z.of_nat (List.length b)) 3408); [lia|].
  destruct (Z.gtb_spec (Z.of_nat (List.length b)) 3408); [|lia].
  reflexivity.
Qed.

Lemma fit_buffer_exact (b : bytes) :
  List.length b = 3408%nat ->
  (len b <? Z.of_nat P21.EXPECTED_BYTES) = false
  /\ (len b >? Z.of_nat P21.EXPECTED_BYTES) = false
  /\ P21.fit_buffer b = b.
Proof.
  intros H. unfold P21.fit_buffer, len. rewrite H.
  change (Z.of_nat P21.EXPECTED_BYTES) with 3408. repeat split.
Qed.

(** Line 24 of [simple_print.py] pads to [3408 - len(bitdata)], so what
    comes out is the longer of the bytes and their complement to 3408. *)
Lemma simple_print_pad_length (b : bytes) :
  List.length (if len b <? 3408 then ljust b (3408 - len b) xFF else b)
  = Nat.max (List.length b) (3408 - List.length b).
Proof.
  unfold ljust, len.
  destruct (Z.ltb_spec (Z.of_nat (List.length b)) 3408).
  - rewrite length_app, repeat_length. lia.
  - lia.
Qed.

(** ** The rasterizer *)

Section Rasterizer.
Context {K : Pillow}.

Local Abbreviation box := (P21.ROTATED_WIDTH_PX, P21.ROTATED_HEIGHT_PX).

(** What [load_image] of [p21.py] returns, stage by stage. *)
Lemma P21_load_image_value (w : world) (path : string) (preview : bool) (threshold : Z) :
  fst (P21.load_image path preview threshold w) =
  match files w path with
  | Return pic =>
      Return (P21.fit_buffer (tobytes (P21.binarise threshold
                (thumbnail box LANCZOS (P21.upright (ImageOps_grayscale pic))))))
  | Raise e => Raise e
  end.
Proof.
  unfold P21.load_image, Image_open, bind, read, lift, show, emit, ret.
  destruct (files w path); [destruct preview|]; reflexivity.
Qed.

(** Without preview [load_image] leaves the world as it found it. *)
Lemma P21_load_image_quiet (w : world) (path : string) (threshold : Z) :
  snd (P21.load_image path false threshold w) = w.
Proof.
  unfold P21.load_image, Image_open, bind, read, lift, ret.
  destruct (files w path); reflexivity.
Qed.

Lemma draw_label_world (w : world) text width height font_path font_size :
  snd (P21.draw_label text width height font_path font_size w) = w.
Proof.
  unfold P21.draw_label, ImageFont_truetype, textbbox, draw_text, bind, read, lift, ret.
  destruct (fonts w font_path font_size) as [f|e]; [|reflexivity].
  destruct (font_textbbox f text) as [[[[b0 b1] b2] b3]|e]; [|reflexivity].
  destruct (font_text_mask f text _); reflexivity.
Qed.

Lemma draw_label_shape (w w1 : world) text (cw ch : nat) font_path font_size img :
  P21.draw_label text cw ch font_path font_size w = (Return img, w1) ->
  mode img = Bilevel /\ width img = cw /\ height img = ch.
Proof.
  unfold P21.draw_label, ImageFont_truetype, textbbox, draw_text, bind, read, lift, ret.
  destruct (fonts w font_path font_size) as [f|e]; [|discriminate].
  destruct (font_textbbox f text) as [[[[b0 b1] b2] b3]|e]; [|discriminate].
  destruct (font_text_mask f text _); [|discriminate].
  intros E. injection E as <- _. repeat split.
Qed.

(** What [render_text_label] returns, given what the drawing gave. *)
Lemma render_text_label_value (w : world) text width height font_path font_size preview :
  fst (P21.render_text_label text width height font_path font_size preview w) =
  match fst (P21.draw_label text width height font_path font_size w) with
  | Return img => Return (P21.fit_buffer (tobytes (P21.force_size (rotate (-90) img))))
  | Raise e => Raise e
  end.
Proof.
  unfold P21.render_text_label, bind, show, emit, ret.
  destruct (P21.draw_label text width height font_path font_size w) as [[img|e] w1];
    [destruct preview|]; reflexivity.
Qed.

Lemma render_text_label_quiet (w : world) text width height font_path font_size :
  snd (P21.render_text_label text width height font_path font_size false w) = w.
Proof.
  unfold P21.render_text_label, bind, ret.
  pose proof (draw_label_world w text width height font_path font_size) as Hw.
  destruct (P21.draw_label text width height font_path font_size w) as [[img|e] w1];
    exact Hw.
Qed.

(** Every file that opens is rasterized by [p21.py] to exactly 3408
    bytes: packed bytes short of 3408 are followed by 0xFF bytes, longer
    ones are cut after the first 3408. *)
Lemma P21_load_image_length (w : world) path preview threshold pic :
  files w path = Return pic ->
  exists packed b,
    packed = tobytes (P21.binarise threshold
               (thumbnail box LANCZOS (P21.upright (ImageOps_grayscale pic))))
    /\ fst (P21.load_image path preview threshold w) = Return b
    /\ List.length b = 3408%nat
    /\ ((List.length packed < 3408)%nat ->
          b = packed ++ repeat xFF (3408 - List.length packed))
    /\ ((3408 < List.length packed)%nat -> b = firstn 3408 packed).
Proof.
  intros Hf. eexists _, _. split; [reflexivity|].
  rewrite P21_load_image_value, Hf. split; [reflexivity|].
  split; [apply fit_buffer_length|].
  split; [apply fit_buffer_short | apply fit_buffer_long].
Qed.

(** The same for every text that [p21.py] manages to draw, on a canvas
    of any size. *)
Lemma P21_render_text_label_length (w w1 : world) text width height font_path font_size
      preview img :
  P21.draw_label text width height font_path font_size w = (Return img, w1) ->
  exists b,
    fst (P21.render_text_label text width height font_path font_size preview w) = Return b
    /\ List.length b = 3408%nat.
Proof.
  intros Hd. eexists. rewrite render_text_label_value, Hd. simpl.
  split; [reflexivity | apply fit_buffer_length].
Qed.

(** What [load_image] of [simple_print.py] returns, stage by stage. *)
Lemma SimplePrint_load_image_run (w : world) (path : string) :
  SimplePrint.load_image path w =
  match files w path with
  | Return pic =>
      let packed :=
        tobytes (convert_1 (thumbnail (96, 284)%nat NEAREST
                   (P21.upright (Contrast_enhance
                      (ImageOps_autocontrast (ImageOps_grayscale pic)) 2)))) in
      (Return (if len packed <? 3408 then ljust packed (3408 - len packed) xFF
               else packed), w)
  | Raise e => (Raise e, w)
  end.
Proof.
  unfold SimplePrint.load_image, Image_open, bind, read, lift, ret.
  destruct (files w path); reflexivity.
Qed.

(** The length of what [simple_print.py] returns for a file that opens:
    with [n] packed bytes, the larger of [n] and [3408 - n]. *)
Lemma SimplePrint_load_image_length (w : world) (path : string) (pic : picture) :
  files w path = Return pic ->
  exists packed b,
    packed = tobytes (convert_1 (thumbnail (96, 284)%nat NEAREST
               (P21.upright (Contrast_enhance
                  (ImageOps_autocontrast (ImageOps_grayscale pic)) 2))))
    /\ fst (SimplePrint.load_image path w) = Return b
    /\ List.length b = Nat.max (List.length packed) (3408 - List.length packed).
Proof.
  intros Hf. eexists _, _. split; [reflexivity|].
  rewrite SimplePrint_load_image_run, Hf. cbv zeta. cbn [fst].
  split; [reflexivity | apply simple_print_pad_length].
Qed.

(** C1, at an input where [simple_print.py] misses it: an 8 by 8 image
    packs to 8 bytes, and line 24 pads them to [3408 - 8] bytes, so the
    rasterizer returns 3400 bytes and not 3408. *)
Theorem simple_print_short_buffer :
  exists b,
    fst (SimplePrint.load_image "test-template-2.png"
           (bench (flat_picture 8 8 255) dead_port)) = Return b
    /\ List.length b = 3400%nat.
Proof.
  eexists. rewrite SimplePrint_load_image_run.
  unfold bench at 1. cbn [files fst]. split; [reflexivity|].
  rewrite simple_print_pad_length, length_tobytes. reflexivity.
Qed.

Lemma binarise_thresholded (threshold : Z) (grey : image) :
  thresholded threshold grey (P21.binarise threshold grey).
Proof.
  split; [reflexivity|]. intros x y Hx Hy. unfold bit. simpl.
  apply Nat.ltb_lt in Hx. rewrite Hx. simpl.
  destruct (getpixel grey x y <? threshold); reflexivity.
Qed.

(** C4, as amended: in [p21.py] the bilevel raster that is packed is the
    downscaled grey raster compared pixel by pixel with the cutoff given
    to [load_image]: a pixel strictly below the cutoff becomes 0, black,
    a pixel at or above it becomes 255, white, and nothing else enters
    the decision.  [simple_print.py] has no cutoff: what it packs is
    Pillow's Floyd-Steinberg conversion of its downscaled,
    contrast-stretched grey raster. *)
Theorem threshold_is_per_pixel (w : world) path preview threshold pic :
  files w path = Return pic ->
  (let grey := thumbnail box LANCZOS (P21.upright (ImageOps_grayscale pic)) in
   let bw := P21.binarise threshold grey in
   fst (P21.load_image path preview threshold w)
     = Return (P21.fit_buffer (tobytes bw))
   /\ mode bw = Bilevel
   /\ thresholded threshold grey bw
   /\ forall x y,
        (getpixel grey x y < threshold -> getpixel bw x y = 0)
        /\ (threshold <= getpixel grey x y -> getpixel bw x y = 255))
  /\
  (let grey := thumbnail (96, 284)%nat NEAREST
                 (P21.upright (Contrast_enhance
                    (ImageOps_autocontrast (ImageOps_grayscale pic)) 2)) in
   let packed := tobytes (convert_1 grey) in
   fst (SimplePrint.load_image path w)
     = Return (if len packed <? 3408 then ljust packed (3408 - len packed) xFF
               else packed)).
Proof.
  intros Hf. split.
  - cbv zeta. rewrite P21_load_image_value, Hf.
    split; [reflexivity|]. split; [reflexivity|].
    split; [apply binarise_thresholded|].
    intros x y. simpl. split; intros H.
    + apply Z.ltb_lt in H. now rewrite H.
    + apply Z.ltb_ge in H. now rewrite H.
  - cbv zeta. now rewrite SimplePrint_load_image_run, Hf.
Qed.

Lemma upright_cases (img : image) :
  ((height img < width img)%nat -> P21.upright img = transpose ROTATE_90 img)
  /\ ((width img <= height img)%nat -> P21.upright img = img)
  /\ (width (P21.upright img) <= height (P21.upright img))%nat.
Proof.
  unfold P21.upright.
  destruct (Nat.ltb_spec (height img) (width img)) as [H|H].
  - change (rotate 90 img) with (transpose ROTATE_90 img).
    repeat split; simpl; intros; lia.
  - repeat split; intros; lia.
Qed.

(** C7: in both scripts the grey raster that goes into the downscaling
    is the one rotated by 90 degrees, with the canvas expanded, when the
    raster is strictly wider than tall, and the raster itself when it is
    square or taller than wide; either way it is then at least as tall as
    wide.  In [p21.py] the raster in question is the decoded grey image,
    in [simple_print.py] the decoded grey image after its contrast
    stretch, which has the same size. *)
Theorem landscape_is_rotated (w : world) path preview threshold pic :
  files w path = Return pic ->
  (let grey := ImageOps_grayscale pic in
   exists turned,
     fst (P21.load_image path preview threshold w)
       = Return (P21.fit_buffer (tobytes (P21.binarise threshold
                   (thumbnail box LANCZOS turned))))
     /\ ((height grey < width grey)%nat -> turned = transpose ROTATE_90 grey)
     /\ ((width grey <= height grey)%nat -> turned = grey)
     /\ (width turned <= height turned)%nat)
  /\
  (let grey := Contrast_enhance (ImageOps_autocontrast (ImageOps_grayscale pic)) 2 in
   size grey = size (ImageOps_grayscale pic) /\
   exists turned,
     fst (SimplePrint.load_image path w)
       = Return (let packed := tobytes (convert_1 (thumbnail (96, 284)%nat NEAREST turned)) in
                 if len packed <? 3408 then ljust packed (3408 - len packed) xFF
                 else packed)
     /\ ((height grey < width grey)%nat -> turned = transpose ROTATE_90 grey)
     /\ ((width grey <= height grey)%nat -> turned = grey)
     /\ (width turned <= height turned)%nat).
Proof.
  intros Hf. split; cbv zeta.
  - exists (P21.upright (ImageOps_grayscale pic)).
    rewrite P21_load_image_value, Hf. split; [reflexivity|].
    apply upright_cases.
  - split; [reflexivity|].
    exists (P21.upright (Contrast_enhance (ImageOps_autocontrast (ImageOps_grayscale pic)) 2)).
    rewrite SimplePrint_load_image_run, Hf. split; [reflexivity|].
    apply upright_cases.
Qed.

(** C8: an image file of 284 by 96 pixels, all of them white, comes out
    of [load_image] of [p21.py] as exactly 3408 bytes, each 0xFF; this
    for the default cutoff 180 and for every cutoff up to 255, with or
    without preview. *)
Theorem white_label_is_all_FF (w : world) path preview threshold pic :
  files w path = Return pic ->
  pic_width pic = 284%nat ->
  pic_height pic = 96%nat ->
  (forall x y, (x < 284)%nat -> (y < 96)%nat -> pic_rgb pic x y = (255, 255, 255)) ->
  threshold <= 255 ->
  fst (P21.load_image path preview threshold w) = Return (repeat xFF 3408).
Proof.
  intros Hf Hw Hh Hwhite Hthr.
  rewrite P21_load_image_value, Hf. f_equal.
  destruct pic as [pw ph rgb]. simpl in Hw, Hh, Hwhite. subst pw ph.
  set (img := P21.binarise _ _).
  assert (E : tobytes img = repeat xFF (height img * 12)).
  { apply tobytes_white; [reflexivity | reflexivity |].
    intros x y Hx Hy. change (width img) with 96%nat in Hx.
    change (height img) with 284%nat in Hy.
    change (getpixel img x y)
      with (if luma (rgb (284 - 1 - y)%nat x) <? threshold then 0 else 255).
    rewrite Hwhite by lia. change (luma (255, 255, 255)) with 255.
    destruct (Z.ltb_spec 255 threshold); [lia | discriminate]. }
  rewrite E. change (height img * 12)%nat with 3408%nat.
  apply fit_buffer_exact, repeat_length.
Qed.

(** C9: for every world and every other argument, [load_image] and
    [render_text_label] of [p21.py] return the same value, bytes or
    exception, with the preview flag on as with it off; the preview only
    hands a raster to the viewer. *)
Theorem preview_leaves_bytes_alone (w : world) path threshold
        text width height font_path font_size :
  fst (P21.load_image path true threshold w)
    = fst (P21.load_image path false threshold w)
  /\ fst (P21.render_text_label text width height font_path font_size true w)
    = fst (P21.render_text_label text width height font_path font_size false w).
Proof.
  split.
  - now rewrite !P21_load_image_value.
  - now rewrite !render_text_label_value.
Qed.

(** C10: on the default canvas of 284 by 96, whatever text was drawn,
    the rotation by -90 degrees with expansion gives a raster of exactly
    96 by 284, so the test that guards the rescaling is false and the
    raster is kept; its packed bytes number exactly 3408, so both length
    tests are false and the bytes are returned as they are, neither
    padded nor cut. *)
Theorem default_canvas_needs_no_fixing (w w1 : world) text font_path font_size preview img :
  P21.draw_label text P21.LABEL_WIDTH_PX P21.LABEL_HEIGHT_PX font_path font_size w
    = (Return img, w1) ->
  let rotated := rotate (-90) img in
  size rotated = (96, 284)%nat
  /\ negb ((width rotated =? P21.ROTATED_WIDTH_PX)
            && (height rotated =? P21.ROTATED_HEIGHT_PX))%nat = false
  /\ P21.force_size rotated = rotated
  /\ List.length (tobytes rotated) = 3408%nat
  /\ (len (tobytes rotated) <? Z.of_nat P21.EXPECTED_BYTES) = false
  /\ (len (tobytes rotated) >? Z.of_nat P21.EXPECTED_BYTES) = false
  /\ fst (P21.render_text_label text P21.LABEL_WIDTH_PX P21.LABEL_HEIGHT_PX
                                font_path font_size preview w)
     = Return (tobytes rotated).
Proof.
  intros Hd rotated.
  assert (Hv := render_text_label_value w text P21.LABEL_WIDTH_PX P21.LABEL_HEIGHT_PX
                  font_path font_size preview).
  rewrite Hd in Hv. simpl in Hv.
  apply draw_label_shape in Hd. destruct Hd as (Hm & Hw & Hh).
  destruct img as [m iw ih px]. simpl in Hm, Hw, Hh. subst m iw ih.
  assert (Hlen : List.length (tobytes rotated) = 3408%nat).
  { rewrite length_tobytes. reflexivity. }
  destruct (fit_buffer_exact _ Hlen) as (Hlt & Hgt & Hfit).
  split; [reflexivity|]. split; [reflexivity|]. split; [reflexivity|].
  split; [exact Hlen|]. split; [exact Hlt|]. split; [exact Hgt|].
  rewrite Hv. apply f_equal. exact Hfit.
Qed.
End Rasterizer.

(** ** The transport *)

Lemma log_log (w : world) (evs evs' : list event) :
  log (log w evs) evs' = log w (evs ++ evs').
Proof. unfold log. simpl. now rewrite app_assoc. Qed.

Lemma emit_log (w : world) (ev : event) : emit ev w = (Return tt, log w [ev]).
Proof. reflexivity. Qed.

Lemma Serial_run (w : world) (device : string) (baudrate timeout : Z) :
  Serial device baudrate timeout w =
  (match dev_open (devices w device) with
   | inl msg => Raise (Exception SerialException msg)
   | inr _ => Return device
   end, log w [SerialOpen device baudrate timeout]).
Proof.
  unfold Serial, bind, read, serial_raise. rewrite emit_log. simpl.
  destruct (dev_open (devices w device)); reflexivity.
Qed.

Lemma Serial_write_run (w : world) (s : string) (data : bytes) :
  Serial_write s data w =
  (match dev_write (devices w s) data with
   | inl msg => Raise (Exception SerialException msg)
   | inr _ => Return tt
   end, log w [SerialWrite s data]).
Proof.
  unfold Serial_write, bind, read, serial_raise. rewrite emit_log. simpl.
  destruct (dev_write (devices w s) data) as [msg|[]]; reflexivity.
Qed.

Lemma Serial_readline_run (w : world) (s : string) :
  Serial_readline s w =
  (match dev_readline (devices w s) with
   | inl msg => Raise (Exception SerialException msg)
   | inr line => Return line
   end, log w [SerialReadline s]).
Proof.
  unfold Serial_readline, bind, read, serial_raise. rewrite emit_log. simpl.
  destruct (dev_readline (devices w s)); reflexivity.
Qed.

(** The three ways [send_to_printer] of [p21.py] can go wrong or right. *)
Lemma send_to_printer_open_fails (w : world) (device : string) (payload : bytes) msg :
  dev_open (devices w device) = inl msg ->
  P21.send_to_printer device payload w =
  (Return None,
   log w [SerialOpen device 115200 3; Printed ("Serial error: " ++ msg)]).
Proof.
  intros Ho. unfold P21.send_to_printer, try_except, with_, bind at 1.
  rewrite Serial_run, Ho. simpl.
  unfold print, bind, ret. rewrite emit_log, log_log. reflexivity.
Qed.

Lemma send_to_printer_write_fails (w : world) (device : string) (payload : bytes) msg :
  dev_open (devices w device) = inr tt ->
  dev_write (devices w device) payload = inl msg ->
  P21.send_to_printer device payload w =
  (Return None,
   log w [SerialOpen device 115200 3; SerialWrite device payload; SerialClose device;
          Printed ("Serial error: " ++ msg)]).
Proof.
  intros Ho Hw. unfold P21.send_to_printer, try_except, with_, bind at 1.
  rewrite Serial_run, Ho. unfold bind at 1.
  rewrite Serial_write_run. simpl devices. rewrite Hw.
  unfold Serial_close. rewrite emit_log, !log_log. simpl.
  unfold print, bind, ret. rewrite emit_log, log_log. reflexivity.
Qed.

Lemma send_to_printer_answers (w : world) (device : string) (payload line : bytes) :
  dev_open (devices w device) = inr tt ->
  dev_write (devices w device) payload = inr tt ->
  dev_readline (devices w device) = inr line ->
  P21.send_to_printer device payload w =
  (Return (Some line),
   log w [SerialOpen device 115200 3; SerialWrite device payload;
          SerialReadline device; SerialClose device]).
Proof.
  intros Ho Hw Hr. unfold P21.send_to_printer, try_except, with_, bind at 1.
  rewrite Serial_run, Ho. unfold bind at 1.
  rewrite Serial_write_run. simpl devices. rewrite Hw.
  unfold bind at 1. rewrite Serial_readline_run. simpl devices. rewrite Hr.
  unfold ret, Serial_close. rewrite emit_log, !log_log. reflexivity.
Qed.

Section Transport.
Context {K : Pillow}.

Lemma rasterize_quiet (w : world) (a : P21.args) :
  snd (P21.rasterize a false w) = w.
Proof.
  unfold P21.rasterize. destruct (P21.args_input a).
  - apply P21_load_image_quiet.
  - apply render_text_label_quiet.
Qed.

(** [main] of [p21.py] once the label is rasterized. *)
Lemma main_sends (w : world) (a : P21.args) (bitdata : bytes) :
  P21.args_preview_only a = false ->
  fst (P21.rasterize a false w) = Return bitdata ->
  P21.main a w =
  match P21.send_to_printer (P21.args_device a)
          (P21.build_print_command bitdata (P21.args_density a) (P21.args_copies a)) w with
  | (Return (Some r), w') => print_bytes r w'
  | (Return None, w') => (Return tt, w')
  | (Raise e, w') => (Raise e, w')
  end.
Proof.
  intros Hp Hr. unfold P21.main. rewrite Hp. unfold bind at 1.
  pose proof (rasterize_quiet w a) as Hq.
  destruct (P21.rasterize a false w) as [o w0]. simpl in Hr, Hq. subst o w0.
  unfold bind.
  destruct (P21.send_to_printer _ _ w) as [[[r|]|e] w']; reflexivity.
Qed.

(** C5, as amended: when the serial device cannot be opened, or opens
    and refuses the command, [send_to_printer] of [p21.py] catches the
    [SerialException], prints [Serial error: <message>] and returns
    [None]; [main] then ends normally and prints no response; the device
    was opened once and written to at most once.  [simple_print.py]
    does not catch the failure: the exception leaves the script after
    the one attempt, nothing is printed, nothing is retried. *)
Theorem serial_failure_ends_the_run (w : world) (a : P21.args) (bitdata : bytes)
        (msg : string) :
  (P21.args_preview_only a = false ->
   fst (P21.rasterize a false w) = Return bitdata ->
   let device := P21.args_device a in
   let command :=
     P21.build_print_command bitdata (P21.args_density a) (P21.args_copies a) in
   device_fails (devices w device) command msg ->
   exists attempted,
     (attempted = [] \/ attempted = [SerialWrite device command; SerialClose device])
     /\ P21.send_to_printer device command w
        = (Return None,
           log w (SerialOpen device 115200 3 :: attempted
                    ++ [Printed ("Serial error: " ++ msg)]))
     /\ P21.main a w
        = (Return tt,
           log w (SerialOpen device 115200 3 :: attempted
                    ++ [Printed ("Serial error: " ++ msg)]))
     /\ caught_and_logged w (P21.main a w))
  /\
  (fst (SimplePrint.load_image "test-template-2.png" w) = Return bitdata ->
   let device := "/dev/rfcomm0"%string in
   let command := SimplePrint.build_print_command bitdata 7 1 in
   device_fails (devices w device) command msg ->
   exists attempted,
     (attempted = [] \/ attempted = [SerialWrite device command])
     /\ SimplePrint.script w
        = (Raise (Exception SerialException msg),
           log w (SerialOpen device 115200 3 :: attempted))).
Proof.
  split.
  - intros Hp Hr device command Hfail.
    assert (Hmain := main_sends w a bitdata Hp Hr).
    fold device command in Hmain.
    assert (E : exists attempted,
               (attempted = [] \/ attempted = [SerialWrite device command; SerialClose device])
               /\ P21.send_to_printer device command w
                  = (Return None,
                     log w (SerialOpen device 115200 3 :: attempted
                              ++ [Printed ("Serial error: " ++ msg)]))).
    { destruct Hfail as [Ho|Ho Hw].
      - exists []. split; [now left|]. now apply send_to_printer_open_fails.
      - eexists. split; [now right|]. now apply send_to_printer_write_fails. }
    destruct E as (attempted & Hatt & Hsend).
    rewrite Hsend in Hmain.
    exists attempted. split; [exact Hatt|]. split; [exact Hsend|].
    split; [exact Hmain|].
    rewrite Hmain. split; [now exists tt|].
    eexists _, _. split; [reflexivity|]. split.
    + right. apply in_or_app. right. left. reflexivity.
    + intros b [Hb|Hb]; [discriminate|].
      apply in_app_or in Hb. destruct Hb as [Hb|[Hb|[]]]; [|discriminate].
      destruct Hatt as [->| ->]; [destruct Hb|].
      destruct Hb as [Hb|[Hb|[]]]; discriminate.
  - intros Hr device command Hfail.
    unfold SimplePrint.script. unfold bind at 1.
    rewrite SimplePrint_load_image_run in Hr |- *.
    destruct (files w "test-template-2.png") as [pic|e]; [|discriminate Hr].
    cbv beta iota zeta in Hr |- *.
    set (padded := if _ <? _ then _ else _) in Hr |- *.
    cbn [fst] in Hr. assert (Hb : padded = bitdata) by congruence.
    clearbody padded. subst padded.
    fold command. unfold bind at 1. rewrite Serial_run. fold device.
    destruct Hfail as [Ho|Ho Hw].
    + exists []. split; [now left|]. now rewrite Ho.
    + eexists. split; [now right|]. rewrite Ho.
      unfold bind at 1. rewrite Serial_write_run. simpl devices. rewrite Hw.
      rewrite log_log. reflexivity.
Qed.
End Transport.

(** ** Runs on concrete inputs *)

(** C4 as stated fails on [simple_print.py]: a pixel of level 150, below
    the cutoff 180, is packed as a set bit, white. *)
Lemma simple_print_is_not_thresholded :
  getpixel mid_grey 0 0 = 150
  /\ bit (convert_1 (K := integer_kernels) mid_grey) 0 0 = true
  /\ ~ thresholded P21.DEFAULT_THRESHOLD mid_grey (convert_1 (K := integer_kernels) mid_grey).
Proof.
  split; [reflexivity|]. split; [reflexivity|].
  intros [_ H]. specialize (H 0%nat 0%nat).
  assert (E : bit (convert_1 (K := integer_kernels) mid_grey) 0 0 = true) by reflexivity.
  rewrite E in H.
  assert (G : getpixel mid_grey 0 0 = 150) by reflexivity.
  rewrite G in H. simpl in H.
  specialize (H (Nat.lt_0_succ 0) (Nat.lt_0_succ 0)). discriminate H.
Qed.

(** C5 as stated fails on [simple_print.py]: with a port that cannot be
    opened the script ends in the exception; nothing caught it, nothing
    was logged. *)
Lemma simple_print_lets_the_failure_out :
  fst (SimplePrint.script (K := integer_kernels) (bench small_white dead_port))
    = Raise (Exception SerialException "could not open port")
  /\ ~ caught_and_logged (bench small_white dead_port)
        (SimplePrint.script (K := integer_kernels) (bench small_white dead_port)).
Proof.
  assert (E : fst (SimplePrint.script (K := integer_kernels) (bench small_white dead_port))
              = Raise (Exception SerialException "could not open port"))
    by (vm_compute; reflexivity).
  split; [exact E|].
  intros [[a Ha] _]. rewrite E in Ha. discriminate Ha.
Qed.

(** A port that opens and refuses the payload: one write, the port is
    closed, the diagnostic is printed. *)
Example stuck_port_run (payload : bytes) :
  P21.send_to_printer "/dev/rfcomm0" payload (bench small_white stuck_port)
  = (Return None,
     log (bench small_white stuck_port)
         [SerialOpen "/dev/rfcomm0" 115200 3; SerialWrite "/dev/rfcomm0" payload;
          SerialClose "/dev/rfcomm0"; Printed "Serial error: write failed"]).
Proof. now apply send_to_printer_write_fails. Qed.

(** A port that answers: [main] prints the line it read. *)
Example answering_port_run :
  trace (snd (P21.main (K := integer_kernels) image_job
                (bench small_white (SerialDevice (inr tt) (fun _ => inr tt) (inr (encode "OK"))))))
  = [SerialOpen "/dev/rfcomm0" 115200 3;
     SerialWrite "/dev/rfcomm0"
       (P21.build_print_command (repeat xFF 3408) P21.DEFAULT_DENSITY P21.DEFAULT_COPIES);
     SerialReadline "/dev/rfcomm0"; SerialClose "/dev/rfcomm0";
     PrintedBytes (encode "OK")].
Proof. vm_compute. reflexivity. Qed.

(** The threshold theorem at the 8 by 8 white file. *)
Lemma threshold_is_per_pixel_witness :
  files (bench small_white dead_port) "label.png" = Return small_white
  /\ thresholded 180
       (thumbnail (K := integer_kernels) (P21.ROTATED_WIDTH_PX, P21.ROTATED_HEIGHT_PX) LANCZOS
          (P21.upright (ImageOps_grayscale small_white)))
       (P21.binarise 180
          (thumbnail (K := integer_kernels) (P21.ROTATED_WIDTH_PX, P21.ROTATED_HEIGHT_PX) LANCZOS
             (P21.upright (ImageOps_grayscale small_white)))).
Proof.
  split; [reflexivity|].
  exact (proj1 (proj2 (proj2 (proj1
    (threshold_is_per_pixel (K := integer_kernels) (bench small_white dead_port)
       "label.png" false 180 small_white eq_refl))))).
Defined.

(** The rotation theorem at a file of 20 by 10 pixels, which is turned. *)
Lemma landscape_is_rotated_witness :
  files (bench (flat_picture 20 10 0) dead_port) "label.png" = Return (flat_picture 20 10 0)
  /\ exists turned,
       fst (P21.load_image (K := integer_kernels) "label.png" false 180
              (bench (flat_picture 20 10 0) dead_port))
         = Return (P21.fit_buffer (tobytes (P21.binarise 180
                     (thumbnail (K := integer_kernels)
                        (P21.ROTATED_WIDTH_PX, P21.ROTATED_HEIGHT_PX) LANCZOS turned))))
       /\ size turned = (10, 20)%nat.
Proof.
  split; [reflexivity|].
  destruct (proj1 (landscape_is_rotated (K := integer_kernels)
                     (bench (flat_picture 20 10 0) dead_port)
                     "label.png" false 180 (flat_picture 20 10 0) eq_refl))
    as (turned & Hv & Hrot & _).
  exists turned. split; [exact Hv|].
  rewrite Hrot; [reflexivity|]. simpl. lia.
Defined.

(** The all-white theorem at the all-white file of 284 by 96 pixels. *)
Lemma white_label_is_all_FF_witness :
  files (bench (flat_picture 284 96 255) dead_port) "white.png"
    = Return (flat_picture 284 96 255)
  /\ P21.DEFAULT_THRESHOLD <= 255
  /\ fst (P21.load_image (K := integer_kernels) "white.png" false P21.DEFAULT_THRESHOLD
            (bench (flat_picture 284 96 255) dead_port))
     = Return (repeat xFF 3408).
Proof.
  split; [reflexivity|]. split; [discriminate|].
  apply (white_label_is_all_FF (K := integer_kernels) _ "white.png" false
           P21.DEFAULT_THRESHOLD (flat_picture 284 96 255)).
  - reflexivity.
  - reflexivity.
  - reflexivity.
  - intros x y _ _. reflexivity.
  - discriminate.
Defined.

(** The default-canvas theorem at the label drawn for the text [A]. *)
Lemma default_canvas_needs_no_fixing_witness :
  P21.draw_label "A" P21.LABEL_WIDTH_PX P21.LABEL_HEIGHT_PX
                 P21.DEFAULT_FONT_PATH P21.DEFAULT_FONT_SIZE (bench small_white dead_port)
    = (Return block_label, bench small_white dead_port)
  /\ fst (P21.render_text_label (K := integer_kernels) "A"
            P21.LABEL_WIDTH_PX P21.LABEL_HEIGHT_PX
            P21.DEFAULT_FONT_PATH P21.DEFAULT_FONT_SIZE false (bench small_white dead_port))
     = Return (tobytes (rotate (-90) block_label)).
Proof.
  split; [reflexivity|].
  apply (default_canvas_needs_no_fixing (K := integer_kernels)
           (bench small_white dead_port) (bench small_white dead_port)
           "A" P21.DEFAULT_FONT_PATH P21.DEFAULT_FONT_SIZE false block_label).
  reflexivity.
Defined.

(** The pass-through theorem at density 300 and -2 copies. *)
Lemma framer_passes_values_through_witness :
  P21.build_print_command [] 300 (-2) = P21.build_print_command [] 300 (-2)
  /\ 300 = 300 /\ -2 = -2.
Proof.
  split; [reflexivity|].
  apply (proj1 (proj2 (proj2 (proj2 (framer_passes_values_through [] 300 (-2)))))).
  reflexivity.
Defined.

(** The transport theorem at a port that cannot be opened, for both scripts. *)
Lemma serial_failure_ends_the_run_witness :
  P21.args_preview_only image_job = false
  /\ device_fails (devices (bench small_white dead_port) (P21.args_device image_job))
       (P21.build_print_command
          (returned [] (P21.rasterize (K := integer_kernels) image_job false
                          (bench small_white dead_port)))
          (P21.args_density image_job) (P21.args_copies image_job))
       "could not open port"
  /\ caught_and_logged (bench small_white dead_port)
       (P21.main (K := integer_kernels) image_job (bench small_white dead_port))
  /\ exists attempted,
       SimplePrint.script (K := integer_kernels) (bench small_white dead_port)
       = (Raise (Exception SerialException "could not open port"),
          log (bench small_white dead_port)
              (SerialOpen "/dev/rfcomm0" 115200 3 :: attempted)).
Proof.
  split; [reflexivity|].
  assert (F : forall payload,
             device_fails (devices (bench small_white dead_port) (P21.args_device image_job))
                          payload "could not open port")
    by (intros payload; apply fails_to_open; reflexivity).
  split; [apply F|].
  split.
  2:{ destruct (proj2 (serial_failure_ends_the_run (K := integer_kernels)
                         (bench small_white dead_port) image_job
                         (returned [] (SimplePrint.load_image (K := integer_kernels)
                                         "test-template-2.png"
                                         (bench small_white dead_port)))
                         "could not open port") eq_refl (F _))
        as (attempted & _ & H).
      exists attempted. exact H. }
  destruct (proj1 (serial_failure_ends_the_run (K := integer_kernels)
                     (bench small_white dead_port) image_job
                     (returned [] (P21.rasterize (K := integer_kernels) image_job false
                                     (bench small_white dead_port)))
                     "could not open port") eq_refl eq_refl (F _))
    as (attempted & _ & _ & _ & H).
  exact H.
Defined.


(** * Further properties of the scripts *)

(** ** Lists *)

Lemma firstn_repeat {A} (a : A) (n m : nat) :
  firstn n (repeat a m) = repeat a (Nat.min n m).
Proof.
  revert m. induction n as [|n IH]; intros [|m]; simpl; try reflexivity.
  now rewrite IH.
Qed.

Lemma nth_flat_map_rows {A B} (f : A -> list B) (n : nat) (l : list A) (a0 : A) (d : B)
      (y k : nat) :
  (forall a, List.length (f a) = n) ->
  (y < List.length l)%nat -> (k < n)%nat ->
  nth (y * n + k) (flat_map f l) d = nth k (f (nth y l a0)) d.
Proof.
  intros Hn. revert y. induction l as [|a l IH]; intros y Hy Hk; simpl in Hy; [lia|].
  simpl. destruct y as [|y].
  - simpl. rewrite app_nth1 by (rewrite Hn; exact Hk). reflexivity.
  - rewrite app_nth2 by (rewrite Hn; simpl; lia).
    rewrite Hn. replace (S y * n + k - n)%nat with (y * n + k)%nat by (simpl; lia).
    apply IH; lia.
Qed.

(** ** Bringing the packed bytes to 3408, once more *)

Lemma fit_buffer_firstn (b : bytes) :
  P21.fit_buffer b = firstn 3408 (b ++ repeat xFF 3408).
Proof.
  destruct (Nat.lt_trichotomy (List.length b) 3408) as [H|[H|H]].
  - rewrite fit_buffer_short by exact H.
    rewrite firstn_app, firstn_all2 by lia. f_equal.
    rewrite firstn_repeat. f_equal. lia.
  - rewrite (proj2 (proj2 (fit_buffer_exact b H))).
    rewrite firstn_app, firstn_all2 by lia.
    rewrite H, Nat.sub_diag, firstn_0. now rewrite app_nil_r.
  - rewrite fit_buffer_long by exact H.
    rewrite firstn_app. replace (3408 - List.length b)%nat with 0%nat by lia.
    rewrite firstn_0. now rewrite app_nil_r.
Qed.

(** X7: lines 45-48 and 91-94 of [p21.py] amount to padding with 0xFF
    and keeping the first 3408 bytes; doing it twice changes nothing more,
    and the bytes that were there, up to the first 3408, stay where they
    were. *)
Theorem fit_buffer_pads_then_cuts (b : bytes) :
  P21.fit_buffer b = firstn 3408 (b ++ repeat xFF 3408)
  /\ P21.fit_buffer (P21.fit_buffer b) = P21.fit_buffer b
  /\ firstn (List.length b) (P21.fit_buffer b) = firstn 3408 b.
Proof.
  split; [apply fit_buffer_firstn|]. split.
  - apply fit_buffer_exact, fit_buffer_length.
  - rewrite fit_buffer_firstn, firstn_firstn, firstn_app.
    destruct (Nat.le_gt_cases (List.length b) 3408) as [H|H].
    + rewrite Nat.min_l by exact H. rewrite Nat.sub_diag, firstn_all, firstn_0.
      rewrite app_nil_r. symmetry. now apply firstn_all2.
    + rewrite Nat.min_r by lia.
      replace (3408 - List.length b)%nat with 0%nat by lia.
      rewrite firstn_0. now rewrite app_nil_r.
Qed.

(** ** The framers side by side *)

(** X14: for the same bitmap, density and copies the commands of the two
    scripts are the same bytes except for one, the mode flag of the
    [BITMAP] declaration: 0 in [p21.py], 1 in [simple_print.py]. *)
Theorem framers_differ_in_one_byte (bitmap : bytes) (density copies : Z) :
  exists before after,
    P21.build_print_command bitmap density copies = before ++ "0"%char :: after
    /\ SimplePrint.build_print_command bitmap density copies = before ++ "1"%char :: after
    /\ List.length (P21.build_print_command bitmap density copies)
       = List.length (SimplePrint.build_print_command bitmap density copies).
Proof.
  exists (line (encode "SIZE 14.0 mm,40.0 mm") ++ line (encode "GAP 5.0 mm,0 mm")
          ++ line (encode "DIRECTION 1,1") ++ line (encode ("DENSITY " ++ str density))
          ++ line (encode "CLS") ++ encode "BITMAP 0,0,12,284,"),
         (","%char :: bitmap ++ encode CRLF ++ line (encode ("PRINT " ++ str copies))).
  rewrite P21_command_lines, SimplePrint_command_lines.
  assert (E : forall flag : ascii,
             wire_format (String flag EmptyString) bitmap density copies
             = (line (encode "SIZE 14.0 mm,40.0 mm") ++ line (encode "GAP 5.0 mm,0 mm")
                ++ line (encode "DIRECTION 1,1") ++ line (encode ("DENSITY " ++ str density))
                ++ line (encode "CLS") ++ encode "BITMAP 0,0,12,284,")
               ++ flag :: ","%char :: bitmap ++ encode CRLF
                        ++ line (encode ("PRINT " ++ str copies))).
  { intros flag. unfold wire_format. rewrite <- !app_assoc.
    do 5 f_equal. unfold line at 1. rewrite <- app_assoc. reflexivity. }
  split; [apply (E "0"%char)|]. split; [apply (E "1"%char)|].
  rewrite (E "0"%char), (E "1"%char), !length_app. reflexivity.
Qed.

(** ** The image rasterizer of [p21.py], further *)

Lemma log_nil (w : world) : log w [] = w.
Proof. destruct w. unfold log. simpl. now rewrite app_nil_r. Qed.

Lemma testbit_Ascii (b0 b1 b2 b3 b4 b5 b6 b7 : bool) :
  map (fun j => N.testbit (N_of_ascii (Ascii b0 b1 b2 b3 b4 b5 b6 b7)) (N.of_nat j))
      (seq 0 8)
  = [b0; b1; b2; b3; b4; b5; b6; b7].
Proof. destruct b0, b1, b2, b3, b4, b5, b6, b7; reflexivity. Qed.

Lemma bit_of_byte_pack (im : image) (y k i : nat) :
  (i < 8)%nat -> bit_of_byte (pack_byte im y k) i = bit im y (8 * k + i).
Proof.
  intros Hi. unfold bit_of_byte, pack_byte.
  pose proof (testbit_Ascii (bit im y (8 * k + 7)) (bit im y (8 * k + 6))
                (bit im y (8 * k + 5)) (bit im y (8 * k + 4)) (bit im y (8 * k + 3))
                (bit im y (8 * k + 2)) (bit im y (8 * k + 1)) (bit im y (8 * k + 0))) as T.
  cbn [map seq] in T.
  injection T as T0 T1 T2 T3 T4 T5 T6 T7.
  do 8 (destruct i as [|i]; [assumption|]). lia.
Qed.

Lemma tobytes_nth (im : image) (y k : nat) (d : ascii) :
  mode im = Bilevel -> (y < height im)%nat -> (k < stride im)%nat ->
  nth (y * stride im + k) (tobytes im) d = pack_byte im y k.
Proof.
  intros Hm Hy Hk. unfold tobytes.
  rewrite (nth_flat_map_rows _ (stride im) _ 0%nat).
  - rewrite seq_nth by exact Hy. simpl. unfold row_bytes. rewrite Hm.
    unfold stride in Hk. rewrite Hm in Hk.
    rewrite (nth_indep _ d (pack_byte im y 0)) by (now rewrite length_map, length_seq).
    rewrite map_nth, seq_nth by exact Hk. reflexivity.
  - intros a. unfold row_bytes, stride. destruct (mode im); now rewrite length_map, length_seq.
  - now rewrite length_seq.
  - exact Hk.
Qed.

Section RasterizerFurther.
Context {K : Pillow}.

Local Abbreviation box := (P21.ROTATED_WIDTH_PX, P21.ROTATED_HEIGHT_PX).

Lemma thumbnail_fits (bx : nat * nat) (flt : resample_filter) (im : image) :
  (width im <= fst bx)%nat -> (height im <= snd bx)%nat -> thumbnail bx flt im = im.
Proof.
  intros Hw Hh. unfold thumbnail.
  apply Nat.leb_le in Hw, Hh. now rewrite Hw, Hh.
Qed.

Lemma P21_load_image_run (w : world) (path : string) (preview : bool) (threshold : Z) :
  exists title,
    P21.load_image path preview threshold w =
    match files w path with
    | Return pic =>
        let img := P21.binarise threshold
                     (thumbnail box LANCZOS (P21.upright (ImageOps_grayscale pic))) in
        (Return (P21.fit_buffer (tobytes img)),
         if preview then log w [Shown title (rotate (-90) img)] else w)
    | Raise e => (Raise e, w)
    end.
Proof.
  eexists.
  unfold P21.load_image, Image_open, bind, read, lift, show, emit, ret.
  destruct (files w path); [destruct preview|]; reflexivity.
Qed.

(** X1: [load_image] of [p21.py] either returns exactly 3408 bytes, the
    packed raster followed by 0xFF bytes and cut after 3408, or, when the
    file does not open, raises the error of [Image.open] and leaves the
    world as it was; there is no third outcome. *)
Theorem p21_image_buffer_or_error (w : world) path preview threshold :
  match files w path with
  | Return pic =>
      exists b,
        fst (P21.load_image path preview threshold w) = Return b
        /\ List.length b = 3408%nat
        /\ b = firstn 3408
                 (tobytes (P21.binarise threshold
                    (thumbnail box LANCZOS (P21.upright (ImageOps_grayscale pic))))
                  ++ repeat xFF 3408)
  | Raise e => P21.load_image path preview threshold w = (Raise e, w)
  end.
Proof.
  destruct (P21_load_image_run w path preview threshold) as [title E].
  rewrite E. destruct (files w path) as [pic|e]; [|reflexivity].
  eexists. split; [reflexivity|]. split; [apply fit_buffer_length | apply fit_buffer_firstn].
Qed.

(** X8: for a file that is not wider than tall and fits into 96 by 284,
    so that it is neither rotated nor downscaled, the bytes returned are
    the rows of the file one after the other, [ceil(width / 8)] bytes a
    row: bit [i] from the left of byte [k] of row [y] is set exactly when
    pixel [8k + i] of that row exists and its grey level is not below the
    cutoff; bits past the right edge are clear; every byte after the last
    row is 0xFF. *)
Theorem p21_image_layout (w : world) path preview threshold pic :
  files w path = Return pic ->
  (pic_width pic <= pic_height pic)%nat ->
  (pic_width pic <= 96)%nat ->
  (pic_height pic <= 284)%nat ->
  let row_len := ((pic_width pic + 7) / 8)%nat in
  exists b,
    fst (P21.load_image path preview threshold w) = Return b
    /\ (forall y k i, (y < pic_height pic)%nat -> (k < row_len)%nat -> (i < 8)%nat ->
          bit_of_byte (nth (y * row_len + k) b zero) i
          = ((8 * k + i <? pic_width pic)%nat
             && negb (luma (pic_rgb pic (8 * k + i) y) <? threshold)))
    /\ (forall j, (pic_height pic * row_len <= j < 3408)%nat -> nth j b zero = xFF).
Proof.
  intros Hf Hwh Hw Hh row_len.
  rewrite P21_load_image_value, Hf.
  set (grey := ImageOps_grayscale pic).
  assert (Eu : P21.upright grey = grey).
  { unfold P21.upright. destruct (Nat.ltb_spec (height grey) (width grey)) as [H|H];
      [simpl in H; lia | reflexivity]. }
  rewrite Eu, thumbnail_fits by (simpl; assumption).
  set (img := P21.binarise threshold grey).
  assert (Hs : stride img = row_len) by reflexivity.
  assert (Hlen : List.length (tobytes img) = (pic_height pic * row_len)%nat)
    by (rewrite length_tobytes; reflexivity).
  assert (Hrow : (row_len <= 12)%nat).
  { unfold row_len. change 12%nat with ((96 + 7) / 8)%nat.
    apply Nat.Div0.div_le_mono. lia. }
  assert (Hle : (pic_height pic * row_len <= 3408)%nat) by nia.
  eexists. split; [reflexivity|]. rewrite fit_buffer_firstn. split.
  - intros y k i Hy Hk Hi.
    assert (Hidx : (y * row_len + k < pic_height pic * row_len)%nat) by nia.
    rewrite nth_firstn.
    destruct (Nat.ltb_spec (y * row_len + k) 3408) as [_|H]; [|lia].
    rewrite app_nth1 by (rewrite Hlen; exact Hidx).
    rewrite <- Hs. rewrite tobytes_nth; [|reflexivity|exact Hy|rewrite Hs; exact Hk].
    rewrite bit_of_byte_pack by exact Hi. unfold bit.
    change (width img) with (pic_width pic).
    change (getpixel img (8 * k + i) y)
      with (if luma (pic_rgb pic (8 * k + i)%nat y) <? threshold then 0 else 255).
    destruct (8 * k + i <? pic_width pic)%nat; [|reflexivity].
    destruct (luma (pic_rgb pic (8 * k + i)%nat y) <? threshold); reflexivity.
  - intros j [Hj1 Hj2]. rewrite nth_firstn.
    destruct (Nat.ltb_spec j 3408) as [_|H]; [|lia].
    rewrite app_nth2 by (rewrite Hlen; exact Hj1).
    rewrite (nth_indep _ zero xFF) by (rewrite repeat_length, Hlen; lia).
    apply nth_repeat.
Qed.

(** X9: for a file wider than tall that fits into 284 by 96, the raster
    handed to the viewer by [load_image] with preview has the size of the
    file and, pixel for pixel, the file's own grey levels compared with
    the cutoff: the rotation of line 36 is undone by the one of line 42. *)
Theorem p21_preview_is_upright_again (w : world) path threshold pic :
  files w path = Return pic ->
  (pic_height pic < pic_width pic)%nat ->
  (pic_width pic <= 284)%nat ->
  (pic_height pic <= 96)%nat ->
  exists title shown,
    snd (P21.load_image path true threshold w) = log w [Shown title shown]
    /\ mode shown = Bilevel
    /\ size shown = (pic_width pic, pic_height pic)
    /\ forall x y, (x < pic_width pic)%nat -> (y < pic_height pic)%nat ->
         getpixel shown x y
         = if luma (pic_rgb pic x y) <? threshold then 0 else 255.
Proof.
  intros Hf Hwh Hw Hh.
  destruct (P21_load_image_run w path true threshold) as [title E].
  rewrite E, Hf. cbv zeta. cbn [snd].
  set (grey := ImageOps_grayscale pic).
  assert (Eu : P21.upright grey = transpose ROTATE_90 grey).
  { apply upright_cases. exact Hwh. }
  rewrite Eu, thumbnail_fits by (simpl; assumption).
  eexists _, _. split; [reflexivity|].
  change (rotate (-90) ?im) with (transpose ROTATE_270 im).
  split; [reflexivity|]. split; [reflexivity|].
  intros x y Hx Hy. simpl.
  replace (pic_width pic - 1 - (pic_width pic - 1 - x))%nat with x by lia.
  reflexivity.
Qed.
End RasterizerFurther.

(** ** The text renderer of [p21.py], further *)

Lemma bit_of_byte_xFF (i : nat) : (i < 8)%nat -> bit_of_byte xFF i = true.
Proof. intros Hi. do 8 (destruct i as [|i]; [reflexivity|]). lia. Qed.

Section TextFurther.
Context {K : Pillow}.

(** X2: on a canvas of any size the raster that [render_text_label]
    packs is bilevel and exactly 96 by 284, rescaled without smoothing
    unless the canvas was 284 by 96; so its packed bytes number 3408 and
    are returned as they are: in the text path nothing is ever padded or
    cut. *)
Theorem text_raster_is_always_96_by_284 (w w1 : world) text (cw ch : nat)
        font_path font_size preview img :
  P21.draw_label text cw ch font_path font_size w = (Return img, w1) ->
  let raster := P21.force_size (rotate (-90) img) in
  mode raster = Bilevel
  /\ size raster = (96, 284)%nat
  /\ List.length (tobytes raster) = 3408%nat
  /\ fst (P21.render_text_label text cw ch font_path font_size preview w)
     = Return (tobytes raster)
  /\ ((cw, ch) = (284, 96)%nat -> raster = rotate (-90) img)
  /\ ((cw, ch) <> (284, 96)%nat -> raster = resize 96 284 NEAREST (rotate (-90) img)).
Proof.
  intros Hd raster.
  assert (Hv := render_text_label_value w text cw ch font_path font_size preview).
  rewrite Hd in Hv. cbn [fst] in Hv.
  apply draw_label_shape in Hd. destruct Hd as (Hm & Hw & Hh).
  destruct img as [m iw ih px]. simpl in Hm, Hw, Hh. subst m iw ih.
  change (rotate (-90) ?im) with (transpose ROTATE_270 im) in *.
  assert (Hcases : ((cw, ch) = (284, 96)%nat /\ raster = transpose ROTATE_270 (Image Bilevel cw ch px))
                   \/ ((cw, ch) <> (284, 96)%nat
                       /\ raster = resize 96 284 NEAREST
                                     (transpose ROTATE_270 (Image Bilevel cw ch px)))).
  { unfold raster, P21.force_size. cbn [transpose width height mode].
    change P21.ROTATED_WIDTH_PX with 96%nat. change P21.ROTATED_HEIGHT_PX with 284%nat.
    destruct (Nat.eqb_spec ch 96) as [Hc|Hc]; destruct (Nat.eqb_spec cw 284) as [Hr|Hr];
      cbn [andb negb]; [left; subst; split; reflexivity | right | right | right];
      (split; [intros E; injection E as E1 E2; lia | reflexivity]). }
  assert (Hshape : mode raster = Bilevel /\ size raster = (96, 284)%nat).
  { destruct Hcases as [[Hc Hr]|[Hc Hr]]; rewrite Hr.
    - injection Hc as -> ->. split; reflexivity.
    - split; reflexivity. }
  destruct Hshape as [Hmode Hsize].
  assert (Hlen : List.length (tobytes raster) = 3408%nat).
  { rewrite length_tobytes. unfold stride. rewrite Hmode.
    injection Hsize as -> ->. reflexivity. }
  split; [exact Hmode|]. split; [exact Hsize|]. split; [exact Hlen|].
  split.
  - rewrite Hv. apply f_equal. apply fit_buffer_exact. exact Hlen.
  - split; intros Hc; destruct Hcases as [[Hc' Hr]|[Hc' Hr]]; try exact Hr; contradiction.
Qed.

(** X13: on the default canvas the bytes returned are the drawn canvas
    turned a quarter clockwise: bit [i] from the left of byte [k] of row
    [r] is set exactly when the canvas pixel in column [r], row
    [95 - (8k + i)] is not black; and the label is 3408 bytes of 0xFF
    exactly when no pixel of the canvas is black. *)
Theorem text_label_layout (w w1 : world) text font_path font_size preview img :
  P21.draw_label text P21.LABEL_WIDTH_PX P21.LABEL_HEIGHT_PX font_path font_size w
    = (Return img, w1) ->
  exists b,
    fst (P21.render_text_label text P21.LABEL_WIDTH_PX P21.LABEL_HEIGHT_PX
                               font_path font_size preview w) = Return b
    /\ (forall r k i, (r < 284)%nat -> (k < 12)%nat -> (i < 8)%nat ->
          bit_of_byte (nth (r * 12 + k) b zero) i
          = negb (getpixel img r (95 - (8 * k + i)) =? 0))
    /\ (b = repeat xFF 3408 <->
        forall x y, (x < 284)%nat -> (y < 96)%nat -> getpixel img x y <> 0).
Proof.
  intros Hd.
  assert (Hv := render_text_label_value w text P21.LABEL_WIDTH_PX P21.LABEL_HEIGHT_PX
                  font_path font_size preview).
  rewrite Hd in Hv. cbn [fst] in Hv.
  apply draw_label_shape in Hd. destruct Hd as (Hm & Hw & Hh).
  destruct img as [m iw ih px]. simpl in Hm, Hw, Hh. subst m iw ih.
  set (img := Image Bilevel P21.LABEL_WIDTH_PX P21.LABEL_HEIGHT_PX px) in *.
  change (P21.force_size (rotate (-90) img)) with (transpose ROTATE_270 img) in Hv.
  set (raster := transpose ROTATE_270 img) in *.
  assert (Hlen : List.length (tobytes raster) = 3408%nat)
    by (rewrite length_tobytes; reflexivity).
  rewrite (proj2 (proj2 (fit_buffer_exact _ Hlen))) in Hv.
  exists (tobytes raster). split; [exact Hv|].
  assert (Hbits : forall r k i, (r < 284)%nat -> (k < 12)%nat -> (i < 8)%nat ->
            bit_of_byte (nth (r * 12 + k) (tobytes raster) zero) i
            = negb (px r (95 - (8 * k + i))%nat =? 0)).
  { intros r k i Hr Hk Hi.
    change 12%nat with (stride raster) at 1.
    rewrite tobytes_nth; [|reflexivity|exact Hr|exact Hk].
    rewrite bit_of_byte_pack by exact Hi. unfold bit.
    change (width raster) with 96%nat.
    change (getpixel raster (8 * k + i) r) with (px r (96 - 1 - (8 * k + i))%nat).
    assert (Hc : (8 * k + i < 96)%nat) by lia.
    apply Nat.ltb_lt in Hc. rewrite Hc. reflexivity. }
  split; [exact Hbits|]. split.
  - intros Hall x y Hx Hy.
    assert (Hc : (95 - y < 96)%nat) by lia.
    specialize (Hbits x ((95 - y) / 8)%nat ((95 - y) mod 8)%nat Hx).
    rewrite Hall in Hbits.
    rewrite (nth_indep _ zero xFF) in Hbits.
    2:{ rewrite repeat_length.
        assert ((95 - y) / 8 < 12)%nat by (apply Nat.Div0.div_lt_upper_bound; lia). lia. }
    rewrite nth_repeat, bit_of_byte_xFF in Hbits by (apply Nat.mod_upper_bound; lia).
    rewrite <- Nat.div_mod_eq in Hbits.
    replace (95 - (95 - y))%nat with y in Hbits by lia.
    assert (Hd8 : ((95 - y) / 8 < 12)%nat) by (apply Nat.Div0.div_lt_upper_bound; lia).
    assert (Hm8 : ((95 - y) mod 8 < 8)%nat) by (apply Nat.mod_upper_bound; lia).
    specialize (Hbits Hd8 Hm8). symmetry in Hbits.
    apply negb_true_iff, Z.eqb_neq in Hbits. exact Hbits.
  - intros Hwhite.
    change 3408%nat with (height raster * 12)%nat.
    apply tobytes_white; [reflexivity | reflexivity |].
    intros x y Hx Hy. change (width raster) with 96%nat in Hx.
    change (height raster) with 284%nat in Hy.
    change (getpixel raster x y) with (px y (96 - 1 - x)%nat).
    apply Hwhite; lia.
Qed.
End TextFurther.

(** X12: [render_text_label] asks the face for the text at an anchor
    that centres its box on the canvas: the margins left and right of the
    box differ by at most one pixel, and so do those above and below; the
    canvas pixels the text covers become 0, all others stay 1. *)
Theorem text_is_centred (w : world) text (cw ch : nat) font_path font_size
        (f : font) (b0 b1 b2 b3 : Z) :
  fonts w font_path font_size = Return f ->
  font_textbbox f text = Return (b0, b1, b2, b3) ->
  exists x y,
    (let left := x + b0 in
     let right := Z.of_nat cw - (x + b2) in
     left <= right <= left + 1)
    /\ (let top := y + b1 in
        let bottom := Z.of_nat ch - (y + b3) in
        top <= bottom <= top + 1)
    /\ match font_text_mask f text (x, y) with
       | Return mask =>
           exists img,
             P21.draw_label text cw ch font_path font_size w = (Return img, w)
             /\ size img = (cw, ch)
             /\ forall px py, getpixel img px py = if mask px py then 0 else 1
       | Raise e => P21.draw_label text cw ch font_path font_size w = (Raise e, w)
       end.
Proof.
  intros Hf Hb.
  exists ((Z.of_nat cw - (b2 - b0)) / 2 - b0), ((Z.of_nat ch - (b3 - b1)) / 2 - b1).
  split; [cbv zeta; Z.div_mod_to_equations; lia|].
  split; [cbv zeta; Z.div_mod_to_equations; lia|].
  unfold P21.draw_label, ImageFont_truetype, textbbox, draw_text, bind, read, lift, ret.
  rewrite Hf, Hb.
  destruct (font_text_mask f text _) as [mask|e]; [|reflexivity].
  eexists. split; [reflexivity|]. split; reflexivity.
Qed.

(** ** The rasterizer of [simple_print.py], further *)

(** X10: for every file that opens, [simple_print.py] returns its packed
    bytes first, unchanged, and the result is 3408 bytes long only when
    the packed bytes were 3408 already or there were none: whenever
    padding is needed, too little is added. *)
Theorem simple_print_pads_short {K : Pillow} (w : world) (path : string) (pic : picture) :
  files w path = Return pic ->
  exists packed b,
    packed = tobytes (convert_1 (thumbnail (96, 284)%nat NEAREST
               (P21.upright (Contrast_enhance
                  (ImageOps_autocontrast (ImageOps_grayscale pic)) 2))))
    /\ SimplePrint.load_image path w = (Return b, w)
    /\ firstn (List.length packed) b = packed
    /\ (List.length b = 3408%nat
        <-> List.length packed = 0%nat \/ List.length packed = 3408%nat)
    /\ ((0 < List.length packed < 3408)%nat -> (List.length b < 3408)%nat).
Proof.
  intros Hf.
  set (packed := tobytes (convert_1 (thumbnail (96, 284)%nat NEAREST
                   (P21.upright (Contrast_enhance
                      (ImageOps_autocontrast (ImageOps_grayscale pic)) 2))))).
  pose (b := if len packed <? 3408 then ljust packed (3408 - len packed) xFF
             else packed).
  assert (Hl : List.length b = Nat.max (List.length packed) (3408 - List.length packed))
    by apply simple_print_pad_length.
  exists packed, b.
  split; [reflexivity|].
  rewrite SimplePrint_load_image_run, Hf.
  split; [reflexivity|].
  split.
  - unfold b, ljust. destruct (len packed <? 3408).
    + rewrite firstn_app, firstn_all, Nat.sub_diag, firstn_0. apply app_nil_r.
    + apply firstn_all.
  - rewrite Hl. split; lia.
Qed.

(** ** Transport and [main], further *)

Lemma send_to_printer_readline_fails (w : world) (device : string) (payload : bytes) msg :
  dev_open (devices w device) = inr tt ->
  dev_write (devices w device) payload = inr tt ->
  dev_readline (devices w device) = inl msg ->
  P21.send_to_printer device payload w =
  (Return None,
   log w [SerialOpen device 115200 3; SerialWrite device payload;
          SerialReadline device; SerialClose device;
          Printed ("Serial error: " ++ msg)]).
Proof.
  intros Ho Hw Hr. unfold P21.send_to_printer, try_except, with_, bind at 1.
  rewrite Serial_run, Ho. unfold bind at 1.
  rewrite Serial_write_run. simpl devices. rewrite Hw.
  unfold bind at 1. rewrite Serial_readline_run. simpl devices. rewrite Hr.
  unfold Serial_close. rewrite emit_log, !log_log. simpl.
  unfold print, bind, ret. rewrite emit_log, log_log. reflexivity.
Qed.

(** X5: whatever the device does, each of open, write and read going
    through or failing with a [SerialException], [send_to_printer] returns
    and does not raise.  It opens the device once; it closes it exactly
    when it had opened it, whatever the write and the read did; it returns
    the line read exactly when open, write and read all succeeded, and
    otherwise returns [None] after printing a [Serial error:] line. *)
Theorem send_to_printer_closes_what_it_opens (w : world) (device : string) (payload : bytes) :
  exists r evs,
    P21.send_to_printer device payload w = (Return r, log w evs)
    /\ count_events is_open evs = 1%nat
    /\ count_events is_close evs
       = match dev_open (devices w device) with inl _ => 0%nat | inr _ => 1%nat end
    /\ (forall answer,
          r = Some answer <->
          dev_open (devices w device) = inr tt
          /\ dev_write (devices w device) payload = inr tt
          /\ dev_readline (devices w device) = inr answer)
    /\ (r = None <-> exists msg, In (Printed ("Serial error: " ++ msg)) evs).
Proof.
  destruct (dev_open (devices w device)) as [mo|[]] eqn:Ho.
  { eexists _, _. split; [apply send_to_printer_open_fails; exact Ho|].
    split; [reflexivity|]. split; [reflexivity|]. split.
    - intros answer. split; [discriminate | intros (H & _); discriminate].
    - split; [intros _; exists mo; right; left; reflexivity | reflexivity]. }
  destruct (dev_write (devices w device) payload) as [mw|[]] eqn:Hw.
  { eexists _, _. split; [apply send_to_printer_write_fails; eassumption|].
    split; [reflexivity|]. split; [reflexivity|]. split.
    - intros answer. split; [discriminate | intros (_ & H & _); discriminate].
    - split; [intros _; exists mw; do 3 right; left; reflexivity | reflexivity]. }
  destruct (dev_readline (devices w device)) as [mr|answer0] eqn:Hr.
  { eexists _, _. split; [apply send_to_printer_readline_fails; eassumption|].
    split; [reflexivity|]. split; [reflexivity|]. split.
    - intros answer. split; [discriminate | intros (_ & _ & H); discriminate].
    - split; [intros _; exists mr; do 4 right; left; reflexivity | reflexivity]. }
  eexists _, _. split; [apply send_to_printer_answers; eassumption|].
  split; [reflexivity|]. split; [reflexivity|]. split.
  - intros answer. split.
    + intros E. injection E as <-. repeat split.
    + intros (_ & _ & E). injection E as <-. reflexivity.
  - split; [discriminate|].
    intros [msg [H|[H|[H|[H|[]]]]]]; discriminate H.
Qed.

Section MainFurther.
Context {K : Pillow}.

Lemma render_text_label_run (w : world) text (cw ch : nat) font_path font_size preview :
  exists title,
    P21.render_text_label text cw ch font_path font_size preview w =
    match fst (P21.draw_label text cw ch font_path font_size w) with
    | Return img =>
        (Return (P21.fit_buffer (tobytes (P21.force_size (rotate (-90) img)))),
         if preview then log w [Shown title img] else w)
    | Raise e => (Raise e, w)
    end.
Proof.
  eexists. unfold P21.render_text_label, bind, show, ret.
  pose proof (draw_label_world w text cw ch font_path font_size) as Hw.
  destruct (P21.draw_label text cw ch font_path font_size w) as [[img|e] w1];
    simpl in Hw; subst w1; [destruct preview|]; reflexivity.
Qed.

Lemma rasterize_length (w : world) (a : P21.args) (preview : bool) (b : bytes) :
  fst (P21.rasterize a preview w) = Return b -> List.length b = 3408%nat.
Proof.
  unfold P21.rasterize. destruct (P21.args_input a) as [path|text].
  - rewrite P21_load_image_value. destruct (files w path); [|discriminate].
    intros E. injection E as <-. apply fit_buffer_length.
  - rewrite render_text_label_value. destruct (fst (P21.draw_label _ _ _ _ _ w)); [|discriminate].
    intros E. injection E as <-. apply fit_buffer_length.
Qed.


(** X4: without preview, when the label is rasterized and the device
    opens, takes the command and answers, [main] returns after exactly
    these events in this order: the port is opened at 115200 baud with a
    timeout of 3, the command built from the 3408-byte bitmap with the
    given density and copies is written, one line is read, the port is
    closed, and the line read is printed. *)
Theorem main_prints_the_answer (w : world) (a : P21.args) (bitdata answer : bytes) :
  P21.args_preview_only a = false ->
  fst (P21.rasterize a false w) = Return bitdata ->
  let device := P21.args_device a in
  let command :=
    P21.build_print_command bitdata (P21.args_density a) (P21.args_copies a) in
  dev_open (devices w device) = inr tt ->
  dev_write (devices w device) command = inr tt ->
  dev_readline (devices w device) = inr answer ->
  List.length bitdata = 3408%nat
  /\ P21.main a w
     = (Return tt,
        log w [SerialOpen device 115200 3; SerialWrite device command;
               SerialReadline device; SerialClose device; PrintedBytes answer]).
Proof.
  intros Hp Hr device command Ho Hw Hl.
  split; [eapply rasterize_length; exact Hr|].
  rewrite (main_sends w a bitdata Hp Hr). fold device command.
  rewrite (send_to_printer_answers w device command answer Ho Hw Hl).
  unfold print_bytes. rewrite emit_log, log_log. reflexivity.
Qed.

(** X11: when the image file does not open, or the font does not load,
    [main] of [p21.py] raises that very error, with or without
    [--preview-only], and the world is as before: nothing shown, nothing
    sent, nothing printed.  [simple_print.py] likewise raises the error of
    its image file before it touches the serial device. *)
Theorem input_errors_stop_the_run (w : world) (a : P21.args) (e : exn) :
  (match P21.args_input a with
   | inl path => files w path = Raise e
   | inr _ => fonts w (P21.args_font_path a) (P21.args_font_size a) = Raise e
   end ->
   P21.main a w = (Raise e, w))
  /\ (files w "test-template-2.png" = Raise e -> SimplePrint.script w = (Raise e, w)).
Proof.
  split.
  - intros He.
    assert (R : forall preview, P21.rasterize a preview w = (Raise e, w)).
    { intros preview. unfold P21.rasterize.
      destruct (P21.args_input a) as [path|text].
      - destruct (P21_load_image_run w path preview P21.DEFAULT_THRESHOLD) as [title E].
        rewrite E, He. reflexivity.
      - destruct (render_text_label_run w text P21.LABEL_WIDTH_PX P21.LABEL_HEIGHT_PX
                    (P21.args_font_path a) (P21.args_font_size a) preview) as [title E].
        rewrite E. unfold P21.draw_label, ImageFont_truetype, bind, read, lift.
        rewrite He. reflexivity. }
    unfold P21.main, bind. destruct (P21.args_preview_only a); rewrite R; reflexivity.
  - intros He. unfold SimplePrint.script. unfold bind at 1.
    rewrite SimplePrint_load_image_run, He. reflexivity.
Qed.

(** X6: once its image is rasterized and the device has opened,
    [simple_print.py] writes the command for density 7 and one copy and
    reads one line.  If both succeed it prints the line and then closes
    the port.  If the write or the read fails the exception leaves the
    script with the port still open: no close follows. *)
Theorem simple_print_script_runs (w : world) (bitdata : bytes) :
  fst (SimplePrint.load_image "test-template-2.png" w) = Return bitdata ->
  let device := "/dev/rfcomm0"%string in
  let command := SimplePrint.build_print_command bitdata 7 1 in
  dev_open (devices w device) = inr tt ->
  (forall answer,
      dev_write (devices w device) command = inr tt ->
      dev_readline (devices w device) = inr answer ->
      SimplePrint.script w
      = (Return tt,
         log w [SerialOpen device 115200 3; SerialWrite device command;
                SerialReadline device; PrintedBytes answer; SerialClose device]))
  /\ (forall msg,
        dev_write (devices w device) command = inl msg ->
        SimplePrint.script w
        = (Raise (Exception SerialException msg),
           log w [SerialOpen device 115200 3; SerialWrite device command]))
  /\ (forall msg,
        dev_write (devices w device) command = inr tt ->
        dev_readline (devices w device) = inl msg ->
        SimplePrint.script w
        = (Raise (Exception SerialException msg),
           log w [SerialOpen device 115200 3; SerialWrite device command;
                  SerialReadline device])).
Proof.
  intros Hr device command Ho.
  assert (E : SimplePrint.script w =
              match dev_write (devices w device) command with
              | inl msg => (Raise (Exception SerialException msg),
                            log w [SerialOpen device 115200 3; SerialWrite device command])
              | inr _ =>
                  match dev_readline (devices w device) with
                  | inl msg => (Raise (Exception SerialException msg),
                                log w [SerialOpen device 115200 3;
                                       SerialWrite device command; SerialReadline device])
                  | inr answer =>
                      (Return tt,
                       log w [SerialOpen device 115200 3; SerialWrite device command;
                              SerialReadline device; PrintedBytes answer;
                              SerialClose device])
                  end
              end).
  { unfold SimplePrint.script. unfold bind at 1.
    rewrite SimplePrint_load_image_run in Hr |- *.
    destruct (files w "test-template-2.png") as [pic|e]; [|discriminate Hr].
    cbv beta iota zeta in Hr |- *.
    set (padded := if _ <? _ then _ else _) in Hr |- *.
    cbn [fst] in Hr. assert (Hb : padded = bitdata) by congruence.
    clearbody padded. subst padded.
    fold command. unfold bind at 1. rewrite Serial_run. fold device. rewrite Ho.
    unfold bind at 1. rewrite Serial_write_run. simpl devices.
    destruct (dev_write (devices w device) command) as [msg|[]].
    - rewrite log_log. reflexivity.
    - unfold bind at 1. rewrite log_log, Serial_readline_run. simpl devices.
      destruct (dev_readline (devices w device)) as [msg|answer].
      + rewrite log_log. reflexivity.
      + unfold bind, print_bytes, Serial_close. rewrite !emit_log, !log_log. reflexivity. }
  split; [|split].
  - intros answer Hw Hl. now rewrite E, Hw, Hl.
  - intros msg Hw. now rewrite E, Hw.
  - intros msg Hw Hl. now rewrite E, Hw, Hl.
Qed.
End MainFurther.

(** ** Further runs on concrete inputs *)

(** The layout theorem at the 8 by 8 white file. *)
Lemma p21_image_layout_witness :
  files (bench small_white dead_port) "label.png" = Return small_white
  /\ (pic_width small_white <= pic_height small_white)%nat
  /\ exists b,
       fst (P21.load_image (K := integer_kernels) "label.png" false 180
              (bench small_white dead_port)) = Return b
       /\ nth 8 b zero = xFF.
Proof.
  split; [reflexivity|]. split; [apply Nat.le_refl|].
  destruct (p21_image_layout (K := integer_kernels) (bench small_white dead_port)
              "label.png" false 180 small_white eq_refl)
    as (b & Hb & _ & Htail).
  - apply Nat.le_refl.
  - simpl. lia.
  - simpl. lia.
  - exists b. split; [exact Hb|]. apply Htail. simpl. lia.
Defined.

(** The preview theorem at a file of 20 by 10 pixels. *)
Lemma p21_preview_is_upright_again_witness :
  files (bench (flat_picture 20 10 0) dead_port) "label.png" = Return (flat_picture 20 10 0)
  /\ exists title shown,
       snd (P21.load_image (K := integer_kernels) "label.png" true 180
              (bench (flat_picture 20 10 0) dead_port))
       = log (bench (flat_picture 20 10 0) dead_port) [Shown title shown]
       /\ size shown = (20, 10)%nat.
Proof.
  split; [reflexivity|].
  destruct (p21_preview_is_upright_again (K := integer_kernels)
              (bench (flat_picture 20 10 0) dead_port) "label.png" 180
              (flat_picture 20 10 0) eq_refl)
    as (title & shown & Hs & _ & Hsize & _).
  - simpl. lia.
  - simpl. lia.
  - simpl. lia.
  - exists title, shown. split; [exact Hs | exact Hsize].
Defined.

(** The any-canvas theorem at a canvas of 100 by 50. *)
Lemma text_raster_is_always_96_by_284_witness :
  P21.draw_label "A" 100 50 P21.DEFAULT_FONT_PATH P21.DEFAULT_FONT_SIZE
                 (bench small_white dead_port)
    = (Return small_label, bench small_white dead_port)
  /\ size (P21.force_size (K := integer_kernels) (rotate (-90) small_label)) = (96, 284)%nat.
Proof.
  split; [reflexivity|].
  apply (text_raster_is_always_96_by_284 (K := integer_kernels)
           (bench small_white dead_port) (bench small_white dead_port)
           "A" 100 50 P21.DEFAULT_FONT_PATH P21.DEFAULT_FONT_SIZE false small_label).
  reflexivity.
Defined.

(** The text layout theorem at the label drawn for [A]. *)
Lemma text_label_layout_witness :
  P21.draw_label "A" P21.LABEL_WIDTH_PX P21.LABEL_HEIGHT_PX
                 P21.DEFAULT_FONT_PATH P21.DEFAULT_FONT_SIZE (bench small_white dead_port)
    = (Return block_label, bench small_white dead_port)
  /\ exists b,
       fst (P21.render_text_label (K := integer_kernels) "A"
              P21.LABEL_WIDTH_PX P21.LABEL_HEIGHT_PX
              P21.DEFAULT_FONT_PATH P21.DEFAULT_FONT_SIZE false (bench small_white dead_port))
       = Return b.
Proof.
  split; [reflexivity|].
  destruct (text_label_layout (K := integer_kernels)
              (bench small_white dead_port) (bench small_white dead_port)
              "A" P21.DEFAULT_FONT_PATH P21.DEFAULT_FONT_SIZE false block_label eq_refl)
    as (b & Hb & _).
  exists b. exact Hb.
Defined.

(** The centring theorem at the text [A] in [block_font]. *)
Lemma text_is_centred_witness :
  fonts (bench small_white dead_port) P21.DEFAULT_FONT_PATH P21.DEFAULT_FONT_SIZE
    = Return block_font
  /\ font_textbbox block_font "A" = Return (0, 0, 8, 10)
  /\ exists x y, x + 0 <= 284 - (x + 8) <= x + 0 + 1 /\ y + 0 <= 96 - (y + 10) <= y + 0 + 1.
Proof.
  split; [reflexivity|]. split; [reflexivity|].
  destruct (text_is_centred (bench small_white dead_port) "A" 284 96
              P21.DEFAULT_FONT_PATH P21.DEFAULT_FONT_SIZE block_font 0 0 8 10
              eq_refl eq_refl)
    as (x & y & Hx & Hy & _).
  exists x, y. split; [exact Hx | exact Hy].
Defined.

(** The padding theorem of [simple_print.py] at the 8 by 8 white file. *)
Lemma simple_print_pads_short_witness :
  files (bench small_white dead_port) "test-template-2.png" = Return small_white
  /\ exists b,
       SimplePrint.load_image (K := integer_kernels) "test-template-2.png"
         (bench small_white dead_port) = (Return b, bench small_white dead_port).
Proof.
  split; [reflexivity|].
  destruct (simple_print_pads_short (K := integer_kernels) (bench small_white dead_port)
              "test-template-2.png" small_white eq_refl)
    as (packed & b & _ & Hb & _).
  exists b. exact Hb.
Defined.


(** The answered-run theorem at [-i label.png] and a port that says OK. *)
Lemma main_prints_the_answer_witness :
  P21.args_preview_only image_job = false
  /\ dev_readline (devices (bench small_white (answering_port (encode "OK")))
                           (P21.args_device image_job)) = inr (encode "OK")
  /\ fst (P21.main (K := integer_kernels) image_job
            (bench small_white (answering_port (encode "OK")))) = Return tt.
Proof.
  split; [reflexivity|]. split; [reflexivity|].
  destruct (main_prints_the_answer (K := integer_kernels)
              (bench small_white (answering_port (encode "OK"))) image_job
              (returned [] (P21.rasterize (K := integer_kernels) image_job false
                              (bench small_white (answering_port (encode "OK")))))
              (encode "OK") eq_refl eq_refl eq_refl eq_refl eq_refl)
    as (_ & ->).
  reflexivity.
Defined.

(** The input-error theorem at a world without files. *)
Lemma input_errors_stop_the_run_witness :
  files (bare_desk dead_port) "label.png"
    = Raise (Exception OSError "No such file or directory")
  /\ P21.main (K := integer_kernels) image_job (bare_desk dead_port)
     = (Raise (Exception OSError "No such file or directory"), bare_desk dead_port)
  /\ SimplePrint.script (K := integer_kernels) (bare_desk dead_port)
     = (Raise (Exception OSError "No such file or directory"), bare_desk dead_port).
Proof.
  split; [reflexivity|].
  destruct (input_errors_stop_the_run (K := integer_kernels) (bare_desk dead_port)
              image_job (Exception OSError "No such file or directory")) as [Hm Hs].
  split; [apply Hm | apply Hs]; reflexivity.
Defined.

(** The script theorem of [simple_print.py] at a port that fails on the read. *)
Lemma simple_print_script_runs_witness :
  dev_open (devices (bench small_white deaf_port) "/dev/rfcomm0") = inr tt
  /\ dev_readline (devices (bench small_white deaf_port) "/dev/rfcomm0")
     = inl "device disconnected"%string
  /\ count_events is_close
       (trace (snd (SimplePrint.script (K := integer_kernels)
                      (bench small_white deaf_port)))) = 0%nat.
Proof.
  split; [reflexivity|]. split; [reflexivity|].
  destruct (simple_print_script_runs (K := integer_kernels) (bench small_white deaf_port)
              (returned [] (SimplePrint.load_image (K := integer_kernels)
                              "test-template-2.png" (bench small_white deaf_port)))
              eq_refl eq_refl)
    as (_ & _ & Hread).
  rewrite (Hread "device disconnected"%string eq_refl eq_refl). reflexivity.
Defined.
